(** * HealthVault: a shallow embedding of [app.py]

    The application is a Flask program over four SQLAlchemy tables
    (patients, visits, medications, allergies).  This development embeds
    the request handlers of [app.py] as functions in a small state and
    exception monad over an explicit store, together with the pieces of
    the Python runtime the handlers lean on ([str.strip], truthiness,
    [datetime.strptime] for the format [%Y-%m-%d], Jinja's template
    inheritance and [sort] filter, SQL [ORDER BY]), and proves the
    properties the specification states about them. *)

From Stdlib Require Import ZArith NArith Lia Ascii String.
From stdpp Require Import gmap strings list sorting.

Local Open Scope Z_scope.

(** ** Python values *)

(** A Python [str] is a sequence of Unicode code points. *)
Abbreviation pystr := (list N).

(** String literals of the source, as code points. *)
Definition lit (s : string) : pystr :=
  N_of_ascii <$> String.list_ascii_of_string s.

(** The exceptions that occur in the program: the two built-in ones,
    werkzeug's [HTTPException], raised by [abort] and [get_or_404], and
    Jinja's [TemplateNotFound]. *)
Inductive exn :=
| ValueError
| TypeError
| HTTPException (code : Z)
| TemplateNotFound (name : string).

Inductive result (A : Type) :=
| Ok (a : A)
| Raise (e : exn).
Arguments Ok {A} a.
Arguments Raise {A} e.

Module Py.

(** [str.isspace] on one code point (CPython's [_PyUnicode_IsWhitespace]). *)
Definition isspace (c : N) : bool :=
  ((0x9 <=? c) && (c <=? 0xD) || (0x1C <=? c) && (c <=? 0x20)
   || (c =? 0x85) || (c =? 0xA0) || (c =? 0x1680)
   || (0x2000 <=? c) && (c <=? 0x200A)
   || (c =? 0x2028) || (c =? 0x2029) || (c =? 0x202F)
   || (c =? 0x205F) || (c =? 0x3000))%N.

Fixpoint lstrip (s : pystr) : pystr :=
  match s with
  | c :: s' => if isspace c then lstrip s' else s
  | [] => []
  end.

Definition rstrip (s : pystr) : pystr := reverse (lstrip (reverse s)).

(** [s.strip()] *)
Definition strip (s : pystr) : pystr := rstrip (lstrip s).

(** Truth value of a [str]: false exactly for the empty string. *)
Definition truthy (s : pystr) : bool :=
  match s with [] => false | _ :: _ => true end.

(** [x or y] on strings. *)
Definition or_str (x y : pystr) : pystr := if truthy x then x else y.

(** [x or ""] where [x] is a [str] or [None]. *)
Definition or_empty (x : option pystr) : pystr :=
  match x with
  | Some s => if truthy s then s else []
  | None => []
  end.

(** [x or None] where [x] is a [str] or [None]. *)
Definition or_None (x : option pystr) : option pystr :=
  match x with
  | Some s => if truthy s then Some s else None
  | None => None
  end.

(** [x or y] where [x] is [None] or an object that is always true
    (a [date]). *)
Definition or_else {A} (x : option A) (y : option A) : option A :=
  match x with Some _ => x | None => y end.

(** Code points of general category Nd holding the digit zero (Unicode
    14.0.0); the nine code points after each hold the digits 1 to 9. *)
Definition Nd_zeros : list N :=
  [ 0x30; 0x660; 0x6f0; 0x7c0; 0x966; 0x9e6; 0xa66; 0xae6; 0xb66; 0xbe6;
    0xc66; 0xce6; 0xd66; 0xde6; 0xe50; 0xed0; 0xf20; 0x1040; 0x1090;
    0x17e0; 0x1810; 0x1946; 0x19d0; 0x1a80; 0x1a90; 0x1b50; 0x1bb0;
    0x1c40; 0x1c50; 0xa620; 0xa8d0; 0xa900; 0xa9d0; 0xa9f0; 0xaa50;
    0xabf0; 0xff10; 0x104a0; 0x10d30; 0x11066; 0x110f0; 0x11136;
    0x111d0; 0x112f0; 0x11450; 0x114d0; 0x11650; 0x116c0; 0x11730;
    0x118e0; 0x11950; 0x11c50; 0x11d50; 0x11da0; 0x16a60; 0x16ac0;
    0x16b50; 0x1d7ce; 0x1d7d8; 0x1d7e2; 0x1d7ec; 0x1d7f6; 0x1e140;
    0x1e2f0; 0x1e950; 0x1fbf0 ]%N.

(** [unicodedata.decimal]: the digit a code point stands for, if any.
    Both the regular-expression class [\d] and [int] go by it. *)
Definition decimal (c : N) : option Z :=
  (λ z, Z.of_N (c - z)) <$>
    find (λ z, (z <=? c) && (c <? z + 10))%N Nd_zeros.

Fixpoint digits_value (acc : Z) (s : pystr) : option Z :=
  match s with
  | [] => Some acc
  | c :: s' =>
      match decimal c with
      | Some d => digits_value (10 * acc + d) s'
      | None => None
      end
  end.

(** [int(s)] for a string of decimal digits with optional surrounding
    whitespace (signs and underscores never reach it here). *)
Definition int (s : pystr) : result Z :=
  match strip s with
  | [] => Raise ValueError
  | t => match digits_value 0 t with
         | Some n => Ok n
         | None => Raise ValueError
         end
  end.

End Py.

(** ** Calendar dates *)

Record date := Date { year : Z; month : Z; day : Z }.

Global Instance date_eq_dec : EqDecision date.
Proof. solve_decision. Defined.

Module Datetime.

Definition MINYEAR : Z := 1.
Definition MAXYEAR : Z := 9999.

Definition is_leap (y : Z) : bool :=
  (y mod 4 =? 0) && (negb (y mod 100 =? 0) || (y mod 400 =? 0)).

Definition days_in_month (y m : Z) : Z :=
  if m =? 2 then (if is_leap y then 29 else 28)
  else if (m =? 4) || (m =? 6) || (m =? 9) || (m =? 11) then 30
  else 31.

(** The constructor [datetime.date(year, month, day)]: a [ValueError]
    for a year, month or day out of range. *)
Definition mk_date (y m d : Z) : result date :=
  if negb ((MINYEAR <=? y) && (y <=? MAXYEAR)) then Raise ValueError
  else if negb ((1 <=? m) && (m <=? 12)) then Raise ValueError
  else if negb ((1 <=? d) && (d <=? days_in_month y m)) then Raise ValueError
  else Ok (Date y m d).

(** *** The regular expression of [_strptime.TimeRE] *)

Inductive regex :=
| Chr (c : N)              (* one literal character *)
| Range (lo hi : N)        (* [lo-hi] *)
| Digit                    (* \d *)
| Cat (r1 r2 : regex)
| Alt (r1 r2 : regex).

(** Backtracking matcher: every way [r] matches a prefix of [s], in the
    order the engine tries them, each as (matched text, remainder). *)
Fixpoint re_match (r : regex) (s : pystr) : list (pystr * pystr) :=
  match r with
  | Chr c =>
      match s with
      | x :: s' => if (x =? c)%N then [([x], s')] else []
      | [] => []
      end
  | Range lo hi =>
      match s with
      | x :: s' => if ((lo <=? x) && (x <=? hi))%N then [([x], s')] else []
      | [] => []
      end
  | Digit =>
      match s with
      | x :: s' => if Py.decimal x is Some _ then [([x], s')] else []
      | [] => []
      end
  | Cat r1 r2 =>
      m1 ← re_match r1 s;
      m2 ← re_match r2 m1.2;
      [(m1.1 ++ m2.1, m2.2)]
  | Alt r1 r2 => re_match r1 s ++ re_match r2 s
  end.

Definition c0 : N := 48.   (* '0' *)
Definition c1 : N := 49.
Definition c2 : N := 50.
Definition c3 : N := 51.
Definition c9 : N := 57.
Definition dash : N := 45. (* '-' *)
Definition space : N := 32.

(** ['Y': (?P<Y>\d\d\d\d)] *)
Definition re_Y : regex := Cat Digit (Cat Digit (Cat Digit Digit)).
(** ['m': (?P<m>1[0-2]|0[1-9]|[1-9])] *)
Definition re_m : regex :=
  Alt (Cat (Chr c1) (Range c0 c2))
    (Alt (Cat (Chr c0) (Range c1 c9)) (Range c1 c9)).
(** ['d': (?P<d>3[0-1]|[1-2]\d|0[1-9]|[1-9]| [1-9])] *)
Definition re_d : regex :=
  Alt (Cat (Chr c3) (Range c0 c1))
    (Alt (Cat (Range c1 c2) Digit)
       (Alt (Cat (Chr c0) (Range c1 c9))
          (Alt (Range c1 c9) (Cat (Chr space) (Range c1 c9))))).

(** The groups of a match of the pattern for [%Y-%m-%d]. *)
Record found := Found { gY : pystr; gm : pystr; gd : pystr; rest : pystr }.

(** [format_regex.match(data_string)]: the first match from the start
    of the string, [None] when there is none. *)
Definition format_match (data_string : pystr) : option found :=
  head (mY ← re_match re_Y data_string;
        s1 ← re_match (Chr dash) mY.2;
        mm ← re_match re_m s1.2;
        s2 ← re_match (Chr dash) mm.2;
        md ← re_match re_d s2.2;
        [Found mY.1 mm.1 md.1 md.2]).

Definition bind_result {A B} (x : result A) (f : A → result B) : result B :=
  match x with Ok a => f a | Raise e => Raise e end.

(** [datetime.strptime(data_string, "%Y-%m-%d").date()] *)
Definition strptime_date (data_string : pystr) : result date :=
  match format_match data_string with
  | None => Raise ValueError                  (* does not match format *)
  | Some f =>
      if Py.truthy (rest f) then Raise ValueError  (* unconverted data remains *)
      else
        bind_result (Py.int (gY f)) (λ y,
        bind_result (Py.int (gm f)) (λ m,
        bind_result (Py.int (gd f)) (λ d,
        mk_date y m d)))
  end.

End Datetime.

(** ** Helpers of [app.py] *)

(** [parse_date]: [None] for a false (empty) value; otherwise the parsed
    date, with [ValueError] caught and turned into [None].  Any other
    exception would propagate. *)
Definition parse_date (value : pystr) : result (option date) :=
  if negb (Py.truthy value) then Ok None
  else match Datetime.strptime_date value with
       | Ok d => Ok (Some d)
       | Raise ValueError => Ok None
       | Raise e => Raise e
       end.

(** ** Models (the four tables)

    The integer primary key [id] of a row is the key under which the row
    is stored in its table; the other columns are the fields below. *)

Module Patient.
Record t := mk {
  first_name : pystr;
  last_name : pystr;
  date_of_birth : option date;
  sex : option pystr;
  phone : option pystr }.

Definition set_first_name (v : pystr) (p : t) : t :=
  mk v (last_name p) (date_of_birth p) (sex p) (phone p).
Definition set_last_name (v : pystr) (p : t) : t :=
  mk (first_name p) v (date_of_birth p) (sex p) (phone p).
Definition set_date_of_birth (v : option date) (p : t) : t :=
  mk (first_name p) (last_name p) v (sex p) (phone p).
Definition set_sex (v : option pystr) (p : t) : t :=
  mk (first_name p) (last_name p) (date_of_birth p) v (phone p).
Definition set_phone (v : option pystr) (p : t) : t :=
  mk (first_name p) (last_name p) (date_of_birth p) (sex p) v.
End Patient.

Module Visit.
Record t := mk {
  patient_id : Z;
  visit_date : option date;
  reason : option pystr;
  notes : option pystr }.
End Visit.

Module Medication.
Record t := mk {
  patient_id : Z;
  name : pystr;
  dosage : option pystr;
  frequency : option pystr }.
End Medication.

Module Allergy.
Record t := mk {
  patient_id : Z;
  allergen : pystr;
  reaction : option pystr;
  severity : option pystr }.
End Allergy.

Record Store := mkStore {
  patients : gmap Z Patient.t;
  visits : gmap Z Visit.t;
  medications : gmap Z Medication.t;
  allergies : gmap Z Allergy.t }.

Definition key_le {A} : relation (Z * A) := λ a b, a.1 ≤ b.1.

Global Instance key_le_dec {A} : RelDecision (@key_le A).
Proof. intros a b. unfold key_le. apply _. Defined.

(** Rows of a table in ascending order of their primary key. *)
Definition rows {A} (t : gmap Z A) : list (Z * A) :=
  merge_sort key_le (map_to_list t).

(** The key SQLite gives a new row of a rowid table: 1 in an empty table,
    otherwise one more than the largest key in use. *)
Definition max_id {A} (t : gmap Z A) : option Z :=
  map_fold (λ k _ acc, Some (match acc with Some m => Z.max k m | None => k end))
    None t.

Definition next_id {A} (t : gmap Z A) : Z :=
  match max_id t with Some m => m + 1 | None => 1 end.

(** The relationship collections [patient.visits], [patient.medications]
    and [patient.allergies]: the children whose foreign key is the
    patient's id. *)
Definition patient_visits (s : Store) (patient_id : Z) : list (Z * Visit.t) :=
  filter (λ r, Visit.patient_id r.2 = patient_id) (rows (visits s)).
Definition patient_medications (s : Store) (patient_id : Z)
  : list (Z * Medication.t) :=
  filter (λ r, Medication.patient_id r.2 = patient_id) (rows (medications s)).
Definition patient_allergies (s : Store) (patient_id : Z)
  : list (Z * Allergy.t) :=
  filter (λ r, Allergy.patient_id r.2 = patient_id) (rows (allergies s)).

(** ** Requests, responses and the handler monad *)

(** The methods the two form routes answer ([HEAD] comes with [GET]). *)
Inductive Method := GET | HEAD | POST.

(** [request.form] is a multi-dict: [get] gives the first value of a key. *)
Record Request := mkRequest {
  method : Method;
  form : list (string * pystr) }.

Fixpoint multidict_get (d : list (string * pystr)) (key : string)
  : option pystr :=
  match d with
  | [] => None
  | (k, v) :: d' => if decide (k = key) then Some v else multidict_get d' key
  end.

(** [request.form.get(key)] *)
Definition form_get (request : Request) (key : string) : option pystr :=
  multidict_get (form request) key.

(** [request.form.get(key, dflt)] *)
Definition form_get_d (request : Request) (key : string) (dflt : pystr)
  : pystr :=
  default dflt (form_get request key).

(** Targets of [url_for]. *)
Inductive Url :=
| url_index
| url_new_patient
| url_patient_detail (patient_id : Z).

(** What a rendered page shows. *)
Inductive Page :=
| index_page (patients : list (Z * Patient.t))
| form_page (patient : option (Z * Patient.t))
| detail_page (patient : Z * Patient.t)
    (visits : list (Z * Visit.t))
    (medications : list (Z * Medication.t))
    (allergies : list (Z * Allergy.t)).

Inductive Response :=
| redirect (location : Url)
| html (page : Page).

(** While a request runs: the session's view of the tables (with the
    changes not yet committed), the committed tables, and the messages
    flashed so far. *)
Record Ctx := mkCtx {
  session : Store;
  database : Store;
  flashes : list string }.

Definition M (A : Type) : Type := Ctx → result A * Ctx.

Global Instance M_ret : MRet M := λ A a c, (Ok a, c).
Global Instance M_bind : MBind M := λ A B f m c,
  match m c with
  | (Ok a, c') => f a c'
  | (Raise e, c') => (Raise e, c')
  end.

Definition lift {A} (r : result A) : M A := λ c, (r, c).

(** [abort(code)] *)
Definition abort {A} (code : Z) : M A := lift (Raise (HTTPException code)).

(** [flash(message)] *)
Definition flash (message : string) : M unit := λ c,
  (Ok (), mkCtx (session c) (database c) (flashes c ++ [message])).

(** [Model.query.get_or_404(id)], for an [id] that SQLite can hold (see
    [sqlite_integer] below): a larger one never reaches the table, the
    driver refusing it with an [OverflowError]. *)
Definition get_or_404 {A} (table : Store → gmap Z A) (id : Z) : M A := λ c,
  match table (session c) !! id with
  | Some row => (Ok row, c)
  | None => (Raise (HTTPException 404), c)
  end.

Definition query {A} (q : Store → A) : M A := λ c, (Ok (q (session c)), c).

Definition update_session (f : Store → Store) : M unit := λ c,
  (Ok (), mkCtx (f (session c)) (database c) (flashes c)).

(** [db.session.add(obj)] for a new object of each model; the result is
    the primary key the row gets. *)
Definition session_add_patient (p : Patient.t) : M Z := λ c,
  let s := session c in
  let id := next_id (patients s) in
  (Ok id,
   mkCtx (mkStore (<[id := p]> (patients s)) (visits s) (medications s)
            (allergies s))
     (database c) (flashes c)).

Definition session_add_visit (v : Visit.t) : M Z := λ c,
  let s := session c in
  let id := next_id (visits s) in
  (Ok id,
   mkCtx (mkStore (patients s) (<[id := v]> (visits s)) (medications s)
            (allergies s))
     (database c) (flashes c)).

Definition session_add_medication (m : Medication.t) : M Z := λ c,
  let s := session c in
  let id := next_id (medications s) in
  (Ok id,
   mkCtx (mkStore (patients s) (visits s) (<[id := m]> (medications s))
            (allergies s))
     (database c) (flashes c)).

Definition session_add_allergy (a : Allergy.t) : M Z := λ c,
  let s := session c in
  let id := next_id (allergies s) in
  (Ok id,
   mkCtx (mkStore (patients s) (visits s) (medications s)
            (<[id := a]> (allergies s)))
     (database c) (flashes c)).

(** The attribute assignments made to a persistent [Patient] object
    reach the session as an update of its row. *)
Definition session_update_patient (id : Z) (p : Patient.t) : M unit :=
  update_session (λ s,
    mkStore (<[id := p]> (patients s)) (visits s) (medications s)
      (allergies s)).

(** [db.session.delete(patient)]: the three relationships are declared
    with [cascade="all, delete-orphan"], so the children in the patient's
    collections are deleted with it. *)
Definition session_delete_patient (id : Z) : M unit :=
  update_session (λ s,
    mkStore (delete id (patients s))
      (filter (λ r, Visit.patient_id r.2 ≠ id) (visits s))
      (filter (λ r, Medication.patient_id r.2 ≠ id) (medications s))
      (filter (λ r, Allergy.patient_id r.2 ≠ id) (allergies s))).

Definition session_delete_visit (id : Z) : M unit :=
  update_session (λ s,
    mkStore (patients s) (delete id (visits s)) (medications s) (allergies s)).

Definition session_delete_medication (id : Z) : M unit :=
  update_session (λ s,
    mkStore (patients s) (visits s) (delete id (medications s)) (allergies s)).

Definition session_delete_allergy (id : Z) : M unit :=
  update_session (λ s,
    mkStore (patients s) (visits s) (medications s) (delete id (allergies s))).

(** [db.session.commit()] *)
Definition commit : M unit := λ c,
  (Ok (), mkCtx (session c) (session c) (flashes c)).

(** What a request leaves behind: the response (or the exception that
    escaped the handler), the messages it flashed, and the committed
    tables.  Uncommitted session changes are dropped with the session. *)
Record Outcome := mkOutcome {
  response : result Response;
  flashed : list string;
  store : Store }.

Definition serve (handler : M Response) (db : Store) : Outcome :=
  let '(r, c) := handler (mkCtx db db []) in
  mkOutcome r (flashes c) (database c).

(** ** SQL [ORDER BY] on text columns *)

Module Sql.

(** SQLite's default BINARY collation compares the UTF-8 encodings with
    [memcmp]; on the code points that is the lexicographic order, a
    proper prefix sorting first. *)
Fixpoint str_compare (a b : pystr) : comparison :=
  match a, b with
  | [], [] => Eq
  | [], _ :: _ => Lt
  | _ :: _, [] => Gt
  | x :: a', y :: b' =>
      match (x ?= y)%N with
      | Eq => str_compare a' b'
      | c => c
      end
  end.

(** [ORDER BY last_name, first_name]: the comparison of two rows. *)
Definition name_leb (p q : Z * Patient.t) : bool :=
  match str_compare (Patient.last_name p.2) (Patient.last_name q.2) with
  | Lt => true
  | Gt => false
  | Eq =>
      match str_compare (Patient.first_name p.2) (Patient.first_name q.2) with
      | Gt => false
      | _ => true
      end
  end.

Definition name_le : relation (Z * Patient.t) := λ p q, name_leb p q = true.

Global Instance name_le_dec : RelDecision name_le.
Proof. intros p q. unfold name_le. apply _. Defined.

(** Put a row behind the rows of the sorted list that do not come after
    it, so that rows with equal names stay in the order they arrive. *)
Fixpoint insert_row (x : Z * Patient.t) (l : list (Z * Patient.t))
  : list (Z * Patient.t) :=
  match l with
  | [] => [x]
  | y :: l' => if name_leb y x then y :: insert_row x l' else x :: y :: l'
  end.

(** [Patient.query.order_by(Patient.last_name, Patient.first_name).all()]:
    the rows sorted by name, rows with equal names in the order of
    their primary keys. *)
Definition order_by_name (s : Store) : list (Z * Patient.t) :=
  foldl (λ sorted x, insert_row x sorted) [] (rows (patients s)).

End Sql.

(** ** Jinja's [sort] filter *)

Module Jinja.

(** [date.__lt__] *)
Definition date_lt (a b : date) : bool :=
  (year a <? year b)
  || (year a =? year b)
     && ((month a <? month b) || (month a =? month b) && (day a <? day b)).

(** [a < b] for attribute values that are a [date] or [None]: ordering
    [None] against anything is a [TypeError]. *)
Definition attr_lt (a b : option date) : result bool :=
  match a, b with
  | Some x, Some y => Ok (date_lt x y)
  | _, _ => Raise TypeError
  end.

(** [a == b] (identical objects are equal; [None] equals only [None]). *)
Definition attr_eq (a b : option date) : bool := bool_decide (a = b).

(** The sort key made by [make_multi_attrgetter] (Jinja 2.11 and later)
    is the list of the attribute values; [<] on lists skips the leading
    equal items and orders the first pair that differs, or else the
    lengths. *)
Fixpoint key_lt (a b : list (option date)) : result bool :=
  match a, b with
  | x :: a', y :: b' => if attr_eq x y then key_lt a' b' else attr_lt x y
  | [], _ :: _ => Ok true
  | _, [] => Ok false
  end.

Section sorted.
Context {A : Type} (key : A → list (option date)).

(** Insert [x] behind the items of the sorted list that are not
    greater than it (a stable insertion that only asks [x < y]). *)
Fixpoint insert (x : A) (l : list A) : result (list A) :=
  match l with
  | [] => Ok [x]
  | y :: l' =>
      match key_lt (key x) (key y) with
      | Raise e => Raise e
      | Ok true => Ok (x :: y :: l')
      | Ok false =>
          match insert x l' with
          | Ok r => Ok (y :: r)
          | Raise e => Raise e
          end
      end
  end.

Fixpoint insertion_sort (done todo : list A) : result (list A) :=
  match todo with
  | [] => Ok done
  | x :: todo' =>
      match insert x done with
      | Ok done' => insertion_sort done' todo'
      | Raise e => Raise e
      end
  end.

(** [sorted(value, key=key, reverse=reverse)]: with [reverse] the
    list is reversed, sorted and reversed again, which keeps the
    sort stable. *)
Definition sorted (rev : bool) (value : list A) : result (list A) :=
  match insertion_sort [] (if rev then reverse value else value) with
  | Ok l => Ok (if rev then reverse l else l)
  | Raise e => Raise e
  end.
End sorted.

(** The key of a visit for [attribute='visit_date']. *)
Definition visit_key (v : Z * Visit.t) : list (option date) :=
  [Visit.visit_date v.2].

(** [value|sort(attribute='visit_date', reverse=True)] *)
Definition sort_visits (value : list (Z * Visit.t))
  : result (list (Z * Visit.t)) :=
  sorted visit_key true value.

End Jinja.

(** ** Templates *)

(** The names the template loader can resolve are the files of the
    application's [templates] folder.  The repository has none: the text
    [BASE_HTML] is only ever handed to the templates as a variable called
    [base], which the loader does not consult. *)
Definition template_folder : list string := [].

(** [environment.get_template(name)] *)
Definition get_template (name : string) : M unit :=
  if bool_decide (name ∈ template_folder) then mret ()
  else lift (Raise (TemplateNotFound name)).

(** [{% extends name %}] at the head of a template: the parent is
    loaded first, and then renders the blocks of the child. *)
Definition extends (name : string) (blocks : M Page) : M Page :=
  get_template name;; blocks.

Definition INDEX_HTML (patients : list (Z * Patient.t)) : M Page :=
  extends "base" (mret (index_page patients)).

Definition PATIENT_FORM_HTML (patient : option (Z * Patient.t)) : M Page :=
  extends "base" (mret (form_page patient)).

(** The detail template shows the visits through the [sort] filter when
    there are any, and the medications and allergies as they come. *)
Definition PATIENT_DETAIL_HTML (patient : Z * Patient.t) : M Page :=
  extends "base"
    (visits ← query (λ s, patient_visits s patient.1);
     shown ← (if bool_decide (visits = []) then mret []
              else lift (Jinja.sort_visits visits));
     medications ← query (λ s, patient_medications s patient.1);
     allergies ← query (λ s, patient_allergies s patient.1);
     mret (detail_page patient shown medications allergies)).

(** [render_template_string(source, **context)] *)
Definition render_template_string (template : M Page) : M Response :=
  page ← template;
  mret (html page).

(** ** Routes *)

Definition index : M Response :=
  patients ← query Sql.order_by_name;
  render_template_string (INDEX_HTML patients).

Definition new_patient (request : Request) : M Response :=
  match method request with
  | POST =>
      let first_name := Py.strip (form_get_d request "first_name" []) in
      let last_name := Py.strip (form_get_d request "last_name" []) in
      if negb (Py.truthy first_name) || negb (Py.truthy last_name) then
        flash "First and last name are required";;
        mret (redirect url_new_patient)
      else
        date_of_birth ← lift (parse_date (form_get_d request "date_of_birth" []));
        let patient :=
          Patient.mk first_name last_name date_of_birth
            (Py.or_None (form_get request "sex"))
            (Py.or_None (form_get request "phone")) in
        id ← session_add_patient patient;
        commit;;
        mret (redirect (url_patient_detail id))
  | _ => render_template_string (PATIENT_FORM_HTML None)
  end.

Definition edit_patient (request : Request) (patient_id : Z) : M Response :=
  patient ← get_or_404 patients patient_id;
  match method request with
  | POST =>
      let patient :=
        Patient.set_first_name
          (Py.or_str (Py.strip (form_get_d request "first_name" []))
             (Patient.first_name patient)) patient in
      let patient :=
        Patient.set_last_name
          (Py.or_str (Py.strip (form_get_d request "last_name" []))
             (Patient.last_name patient)) patient in
      date_of_birth ← lift (parse_date (form_get_d request "date_of_birth" []));
      let patient :=
        Patient.set_date_of_birth
          (Py.or_else date_of_birth (Patient.date_of_birth patient)) patient in
      let patient :=
        Patient.set_sex (Py.or_None (form_get request "sex")) patient in
      let patient :=
        Patient.set_phone (Py.or_None (form_get request "phone")) patient in
      session_update_patient patient_id patient;;
      commit;;
      mret (redirect (url_patient_detail patient_id))
  | _ => render_template_string (PATIENT_FORM_HTML (Some (patient_id, patient)))
  end.

Definition patient_detail (patient_id : Z) : M Response :=
  patient ← get_or_404 patients patient_id;
  render_template_string (PATIENT_DETAIL_HTML (patient_id, patient)).

Definition delete_patient (patient_id : Z) : M Response :=
  patient ← get_or_404 patients patient_id;
  session_delete_patient patient_id;;
  commit;;
  mret (redirect url_index).

(** *** Visits *)

Definition add_visit (request : Request) (patient_id : Z) : M Response :=
  patient ← get_or_404 patients patient_id;
  visit_date ← lift (parse_date (form_get_d request "visit_date" []));
  let visit :=
    Visit.mk patient_id visit_date
      (Py.or_None (form_get request "reason"))
      (Py.or_None (form_get request "notes")) in
  _ ← session_add_visit visit;
  commit;;
  mret (redirect (url_patient_detail patient_id)).

Definition delete_visit (patient_id visit_id : Z) : M Response :=
  _ ← get_or_404 patients patient_id;
  visit ← get_or_404 visits visit_id;
  if bool_decide (Visit.patient_id visit ≠ patient_id) then abort 404
  else
    session_delete_visit visit_id;;
    commit;;
    mret (redirect (url_patient_detail patient_id)).

(** *** Medications *)

Definition add_medication (request : Request) (patient_id : Z) : M Response :=
  patient ← get_or_404 patients patient_id;
  let name := Py.strip (Py.or_empty (form_get request "name")) in
  if negb (Py.truthy name) then
    flash "Medication name is required";;
    mret (redirect (url_patient_detail patient_id))
  else
    let med :=
      Medication.mk patient_id name
        (Py.or_None (form_get request "dosage"))
        (Py.or_None (form_get request "frequency")) in
    _ ← session_add_medication med;
    commit;;
    mret (redirect (url_patient_detail patient_id)).

Definition delete_medication (patient_id medication_id : Z) : M Response :=
  _ ← get_or_404 patients patient_id;
  med ← get_or_404 medications medication_id;
  if bool_decide (Medication.patient_id med ≠ patient_id) then abort 404
  else
    session_delete_medication medication_id;;
    commit;;
    mret (redirect (url_patient_detail patient_id)).

(** *** Allergies *)

Definition add_allergy (request : Request) (patient_id : Z) : M Response :=
  patient ← get_or_404 patients patient_id;
  let allergen :=
    Py.strip (Py.or_empty (form_get request "allergen")) in
  if negb (Py.truthy allergen) then
    flash "Allergen is required";;
    mret (redirect (url_patient_detail patient_id))
  else
    let allergy :=
      Allergy.mk patient_id allergen
        (Py.or_None (form_get request "reaction"))
        (Py.or_None (form_get request "severity")) in
    _ ← session_add_allergy allergy;
    commit;;
    mret (redirect (url_patient_detail patient_id)).

Definition delete_allergy (patient_id allergy_id : Z) : M Response :=
  _ ← get_or_404 patients patient_id;
  allergy ← get_or_404 allergies allergy_id;
  if bool_decide (Allergy.patient_id allergy ≠ patient_id) then abort 404
  else
    session_delete_allergy allergy_id;;
    commit;;
    mret (redirect (url_patient_detail patient_id)).

(** ** Outcomes and sample data used in the statements below *)

(** The request is answered with 404 and nothing is flashed or stored. *)
Definition not_found (s : Store) : Outcome :=
  mkOutcome (Raise (HTTPException 404)) [] s.

(** The request is answered with a redirect and one flashed message, and
    nothing is stored. *)
Definition rejected (location : Url) (message : string) (s : Store) : Outcome :=
  mkOutcome (Ok (redirect location)) [message] s.

Definition post (fields : list (string * pystr)) : Request :=
  mkRequest POST fields.

Definition ada : Patient.t :=
  Patient.mk (lit "Ada") (lit "Lovelace") (Some (Date 1815 12 10))
    (Some (lit "F")) (Some (lit "555-0100")).

Definition marie : Patient.t :=
  Patient.mk (lit "Marie") (lit "Curie") (Some (Date 1867 11 7)) None None.

(** Patients 7 and 9; patient 7 has two visits, one medication and one
    allergy; visit 5, medication 5 and allergy 5 belong to patient 9. *)
Definition clinic : Store :=
  mkStore
    (<[7 := ada]> (<[9 := marie]> ∅))
    (<[1 := Visit.mk 7 (Some (Date 2024 1 10)) (Some (lit "checkup")) None]>
       (<[2 := Visit.mk 7 (Some (Date 2024 3 2)) None None]>
          (<[5 := Visit.mk 9 (Some (Date 2023 6 1)) None None]> ∅)))
    (<[1 := Medication.mk 7 (lit "aspirin") None None]>
       (<[5 := Medication.mk 9 (lit "iodine") None None]> ∅))
    (<[1 := Allergy.mk 7 (lit "pollen") None None]>
       (<[5 := Allergy.mk 9 (lit "latex") None None]> ∅)).

(** [date.isoformat()]: the text [YYYY-MM-DD] of a date, zero padded. *)
Definition digit_char (n : Z) : N := Z.to_N (48 + n mod 10).

Definition isoformat (d : date) : pystr :=
  [digit_char (year d / 1000); digit_char (year d / 100);
   digit_char (year d / 10); digit_char (year d); Datetime.dash;
   digit_char (month d / 10); digit_char (month d); Datetime.dash;
   digit_char (day d / 10); digit_char (day d)].

(** The order of the patient list, stated on its own: strings compare
    lexicographically by code point, and rows by last name, then by
    first name. *)
Inductive str_lt : pystr → pystr → Prop :=
| str_lt_nil y b : str_lt [] (y :: b)
| str_lt_head x y a b : (x < y)%N → str_lt (x :: a) (y :: b)
| str_lt_tail x a b : str_lt a b → str_lt (x :: a) (x :: b).

Definition str_le (a b : pystr) : Prop := str_lt a b ∨ a = b.

Definition name_order : relation (Z * Patient.t) := λ p q,
  str_lt (Patient.last_name p.2) (Patient.last_name q.2)
  ∨ (Patient.last_name p.2 = Patient.last_name q.2
     ∧ str_le (Patient.first_name p.2) (Patient.first_name q.2)).

(** The calendar order of dates, and the order of the visit table of the
    detail view: later dates first. *)
Definition date_le (a b : date) : Prop :=
  year a < year b
  ∨ (year a = year b
     ∧ (month a < month b ∨ (month a = month b ∧ day a ≤ day b))).

Definition visit_le (u v : Z * Visit.t) : Prop :=
  match Visit.visit_date u.2, Visit.visit_date v.2 with
  | Some a, Some b => date_le a b
  | _, _ => False
  end.

Definition newest_first : relation (Z * Visit.t) := flip visit_le.

(** A visit whose date is absent. *)
Definition undated (v : Z * Visit.t) : bool :=
  bool_decide (Visit.visit_date v.2 = None).

(** Patient 1 with one dated and one undated visit. *)
Definition ward : Store :=
  mkStore (<[1 := ada]> ∅)
    (<[1 := Visit.mk 1 (Some (Date 2024 1 10)) (Some (lit "checkup")) None]>
       (<[2 := Visit.mk 1 None (Some (lit "walk-in")) None]> ∅))
    ∅ ∅.

(** ** The rest of the program *)

(** The property [Patient.full_name]:
    [f"{self.first_name} {self.last_name}".strip()]. *)
Definition full_name (p : Patient.t) : pystr :=
  Py.strip (Patient.first_name p ++ [Datetime.space] ++ Patient.last_name p).

(** The URL map made by the [@app.route] decorators, one route per view
    function, with the converted [<int:...>] path arguments. *)
Inductive Route :=
| route_index
| route_new_patient
| route_edit_patient (patient_id : Z)
| route_patient_detail (patient_id : Z)
| route_delete_patient (patient_id : Z)
| route_add_visit (patient_id : Z)
| route_delete_visit (patient_id visit_id : Z)
| route_add_medication (patient_id : Z)
| route_delete_medication (patient_id medication_id : Z)
| route_add_allergy (patient_id : Z)
| route_delete_allergy (patient_id allergy_id : Z).

(** The [methods] of each route ([GET] routes answer [HEAD] as well). *)
Definition methods (r : Route) (m : Method) : bool :=
  match r with
  | route_index | route_patient_detail _ =>
      match m with POST => false | _ => true end
  | route_new_patient | route_edit_patient _ => true
  | _ => match m with POST => true | _ => false end
  end.

(** Routing: a method the route does not list is answered with 405
    before any view function runs. *)
Definition dispatch (r : Route) (request : Request) : M Response :=
  if methods r (method request) then
    match r with
    | route_index => index
    | route_new_patient => new_patient request
    | route_edit_patient patient_id => edit_patient request patient_id
    | route_patient_detail patient_id => patient_detail patient_id
    | route_delete_patient patient_id => delete_patient patient_id
    | route_add_visit patient_id => add_visit request patient_id
    | route_delete_visit patient_id visit_id => delete_visit patient_id visit_id
    | route_add_medication patient_id => add_medication request patient_id
    | route_delete_medication patient_id medication_id =>
        delete_medication patient_id medication_id
    | route_add_allergy patient_id => add_allergy request patient_id
    | route_delete_allergy patient_id allergy_id =>
        delete_allergy patient_id allergy_id
    end
  else abort 405.


(** The integers SQLite stores, and the only ones its driver takes as a
    query parameter: 64 bits, signed.  The [<int:...>] converter of a
    path has no such bound; [get_or_404] above is the lookup of an id
    within it. *)
Definition sqlite_integer (id : Z) : Prop := - 2 ^ 63 ≤ id < 2 ^ 63.

(** *** Conditions on a store, used to state what requests keep *)

(** Every visit, medication and allergy belongs to a stored patient. *)
Definition references_ok (s : Store) : Prop :=
  (∀ id v, visits s !! id = Some v →
           is_Some (patients s !! Visit.patient_id v)) ∧
  (∀ id m, medications s !! id = Some m →
           is_Some (patients s !! Medication.patient_id m)) ∧
  (∀ id a, allergies s !! id = Some a →
           is_Some (patients s !! Allergy.patient_id a)).

(** A required text: not empty, and with no whitespace at either end. *)
Definition trimmed (x : pystr) : Prop := x ≠ [] ∧ Py.strip x = x.

(** An optional text: absent rather than empty. *)
Definition filled (x : option pystr) : Prop := x ≠ Some [].

(** An optional date: a day of the calendar when present. *)
Definition real_date (x : option date) : Prop :=
  ∀ d, x = Some d → Datetime.mk_date (year d) (month d) (day d) = Ok d.

Definition patient_ok (p : Patient.t) : Prop :=
  trimmed (Patient.first_name p) ∧ trimmed (Patient.last_name p) ∧
  real_date (Patient.date_of_birth p) ∧
  filled (Patient.sex p) ∧ filled (Patient.phone p).

Definition visit_ok (v : Visit.t) : Prop :=
  real_date (Visit.visit_date v) ∧
  filled (Visit.reason v) ∧ filled (Visit.notes v).

Definition medication_ok (m : Medication.t) : Prop :=
  trimmed (Medication.name m) ∧
  filled (Medication.dosage m) ∧ filled (Medication.frequency m).

Definition allergy_ok (a : Allergy.t) : Prop :=
  trimmed (Allergy.allergen a) ∧
  filled (Allergy.reaction a) ∧ filled (Allergy.severity a).

(** Every row is as the forms store it. *)
Definition rows_ok (s : Store) : Prop :=
  (∀ id p, patients s !! id = Some p → patient_ok p) ∧
  (∀ id v, visits s !! id = Some v → visit_ok v) ∧
  (∀ id m, medications s !! id = Some m → medication_ok m) ∧
  (∀ id a, allergies s !! id = Some a → allergy_ok a).

(** The validation messages of the program. *)
Definition messages : list string :=
  ["First and last name are required"; "Medication name is required";
   "Allergen is required"]%string.

(** A request either flashes nothing, or is a rejected submission. *)
Definition quiet_or_rejected (s : Store) (o : Outcome) : Prop :=
  flashed o = [] ∨ ∃ location message,
                     o = rejected location message s ∧ message ∈ messages.

(** All that one request can do to the store. *)
Inductive effect (s : Store) : Store → Prop :=
| effect_none : effect s s
| effect_put_patient id p :
    ((∀ old, patients s !! id = Some old → patient_ok old) → patient_ok p) →
    effect s (mkStore (<[id := p]> (patients s)) (visits s) (medications s)
                (allergies s))
| effect_delete_patient id :
    effect s
      (mkStore (delete id (patients s))
         (filter (λ r, Visit.patient_id r.2 ≠ id) (visits s))
         (filter (λ r, Medication.patient_id r.2 ≠ id) (medications s))
         (filter (λ r, Allergy.patient_id r.2 ≠ id) (allergies s)))
| effect_add_visit v :
    is_Some (patients s !! Visit.patient_id v) → visit_ok v →
    effect s (mkStore (patients s) (<[next_id (visits s) := v]> (visits s))
                (medications s) (allergies s))
| effect_delete_visit id :
    effect s (mkStore (patients s) (delete id (visits s)) (medications s)
                (allergies s))
| effect_add_medication m :
    is_Some (patients s !! Medication.patient_id m) → medication_ok m →
    effect s (mkStore (patients s) (visits s)
                (<[next_id (medications s) := m]> (medications s))
                (allergies s))
| effect_delete_medication id :
    effect s (mkStore (patients s) (visits s) (delete id (medications s))
                (allergies s))
| effect_add_allergy a :
    is_Some (patients s !! Allergy.patient_id a) → allergy_ok a →
    effect s (mkStore (patients s) (visits s) (medications s)
                (<[next_id (allergies s) := a]> (allergies s)))
| effect_delete_allergy id :
    effect s (mkStore (patients s) (visits s) (medications s)
                (delete id (allergies s))).

(** A date written without zero padding of the month and the day. *)
Definition unpadded (n : Z) : pystr :=
  if n <? 10 then [digit_char n] else [digit_char (n / 10); digit_char n].

Definition isoformat_unpadded (d : date) : pystr :=
  [digit_char (year d / 1000); digit_char (year d / 100);
   digit_char (year d / 10); digit_char (year d)]
  ++ [Datetime.dash] ++ unpadded (month d)
  ++ [Datetime.dash] ++ unpadded (day d).

(** A decimal digit: a character [\d] matches and [int] reads. *)
Definition digit (c : N) : Prop := is_Some (Py.decimal c).

(** The least and the greatest length of a text a pattern matches. *)
Fixpoint min_len (r : Datetime.regex) : nat :=
  match r with
  | Datetime.Cat r1 r2 => (min_len r1 + min_len r2)%nat
  | Datetime.Alt r1 r2 => min_len r1 `min` min_len r2
  | _ => 1%nat
  end.

Fixpoint max_len (r : Datetime.regex) : nat :=
  match r with
  | Datetime.Cat r1 r2 => (max_len r1 + max_len r2)%nat
  | Datetime.Alt r1 r2 => max_len r1 `max` max_len r2
  | _ => 1%nat
  end.

(** * Properties *)

(** ** Running handlers *)

Lemma serve_bind {A} (m : M A) (k : A → M Response) (s : Store) a c :
  m (mkCtx s s []) = (Ok a, c) →
  serve (m ≫= k) s = (let '(r, c') := k a c in mkOutcome r (flashes c') (database c')).
Proof. intros H. unfold serve, mbind, M_bind. rewrite H. reflexivity. Qed.

Lemma get_or_404_found {A} (table : Store → gmap Z A) id row c :
  table (session c) !! id = Some row → get_or_404 table id c = (Ok row, c).
Proof. intros H. unfold get_or_404. by rewrite H. Qed.

Lemma get_or_404_missing {A} (table : Store → gmap Z A) id c :
  table (session c) !! id = None →
  get_or_404 table id c = (Raise (HTTPException 404), c).
Proof. intros H. unfold get_or_404. by rewrite H. Qed.

Ltac run_handler :=
  unfold serve, mbind, M_bind, mret, M_ret, abort, lift, flash, commit,
    query, update_session; simpl.

(** ** Parsing dates *)

Lemma int_raises_ValueError s e : Py.int s = Raise e → e = ValueError.
Proof.
  unfold Py.int. destruct (Py.strip s); [congruence|].
  destruct (Py.digits_value _ _); congruence.
Qed.

Lemma mk_date_raises_ValueError y m d e :
  Datetime.mk_date y m d = Raise e → e = ValueError.
Proof.
  unfold Datetime.mk_date.
  repeat (match goal with |- context [if ?b then _ else _] => destruct b end);
    congruence.
Qed.

Lemma mk_date_fields y m d dt :
  Datetime.mk_date y m d = Ok dt → dt = Date y m d.
Proof.
  unfold Datetime.mk_date.
  repeat (match goal with |- context [if ?b then _ else _] => destruct b end);
    congruence.
Qed.

(** The only exception [strptime] raises on a string is [ValueError]. *)
Lemma strptime_raises_ValueError value e :
  Datetime.strptime_date value = Raise e → e = ValueError.
Proof.
  unfold Datetime.strptime_date, Datetime.bind_result.
  destruct (Datetime.format_match value) as [f|]; [|congruence].
  destruct (Py.truthy _); [congruence|].
  destruct (Py.int (Datetime.gY f)) eqn:HY; [|intros [= <-]; eauto using int_raises_ValueError].
  destruct (Py.int (Datetime.gm f)) eqn:Hm; [|intros [= <-]; eauto using int_raises_ValueError].
  destruct (Py.int (Datetime.gd f)) eqn:Hd; [|intros [= <-]; eauto using int_raises_ValueError].
  apply mk_date_raises_ValueError.
Qed.

Lemma strptime_empty : Datetime.strptime_date [] = Raise ValueError.
Proof. reflexivity. Qed.

(** [parse_date] as a function of what [strptime] does. *)
Lemma parse_date_eq value :
  parse_date value =
  Ok (match Datetime.strptime_date value with Ok d => Some d | Raise _ => None end).
Proof.
  unfold parse_date. destruct value as [|c value]; [reflexivity|]. simpl.
  destruct (Datetime.strptime_date (c :: value)) as [d|e] eqn:H; [reflexivity|].
  by rewrite (strptime_raises_ValueError _ _ H).
Qed.

(** A date that comes out of [strptime] is one the [date] constructor
    accepts: a day of the proleptic Gregorian calendar in years 1-9999. *)
Lemma strptime_valid value d :
  Datetime.strptime_date value = Ok d →
  Datetime.mk_date (year d) (month d) (day d) = Ok d.
Proof.
  unfold Datetime.strptime_date, Datetime.bind_result.
  destruct (Datetime.format_match value) as [f|]; [|congruence].
  destruct (Py.truthy _); [congruence|].
  destruct (Py.int (Datetime.gY f)); [|congruence].
  destruct (Py.int (Datetime.gm f)); [|congruence].
  destruct (Py.int (Datetime.gd f)); [|congruence].
  intros H. by rewrite (mk_date_fields _ _ _ _ H) in H |- *.
Qed.

(** ** Dates in ISO form parse back *)

Lemma digit_char_cases n :
  ∃ k, 0 ≤ k < 10 ∧ n mod 10 = k ∧ digit_char n = Z.to_N (48 + k).
Proof.
  exists (n mod 10). split; [apply Z.mod_pos_bound; lia|]. done.
Qed.

Ltac digit_cases k Hk :=
  assert (k = 0 ∨ k = 1 ∨ k = 2 ∨ k = 3 ∨ k = 4 ∨ k = 5 ∨ k = 6 ∨ k = 7
          ∨ k = 8 ∨ k = 9) as Hk by lia;
  repeat destruct Hk as [Hk | Hk]; subst k.

Lemma decimal_digit_char n : Py.decimal (digit_char n) = Some (n mod 10).
Proof.
  destruct (digit_char_cases n) as (k & Hk & -> & ->).
  digit_cases k Hk'; reflexivity.
Qed.

Lemma isspace_digit_char n : Py.isspace (digit_char n) = false.
Proof.
  destruct (digit_char_cases n) as (k & Hk & _ & ->).
  digit_cases k Hk'; reflexivity.
Qed.

Lemma list_bind_singleton {A B} (f : A → list B) (x : A) : [x] ≫= f = f x.
Proof. simpl. apply app_nil_r. Qed.

Lemma re_match_Digit x s :
  is_Some (Py.decimal x) →
  Datetime.re_match Datetime.Digit (x :: s) = [([x], s)].
Proof. intros [d H]. simpl. by rewrite H. Qed.

Lemma re_match_Digit_Cat x s r :
  is_Some (Py.decimal x) →
  Datetime.re_match (Datetime.Cat Datetime.Digit r) (x :: s)
  = (m ← Datetime.re_match r s; [(x :: m.1, m.2)]).
Proof.
  intros H.
  change (Datetime.re_match (Datetime.Cat Datetime.Digit r) (x :: s))
    with (m1 ← Datetime.re_match Datetime.Digit (x :: s);
          m2 ← Datetime.re_match r m1.2; [(m1.1 ++ m2.1, m2.2)]).
  by rewrite re_match_Digit, list_bind_singleton.
Qed.

(** The year group takes four digits, whatever follows. *)
Lemma re_match_Y x1 x2 x3 x4 s :
  is_Some (Py.decimal x1) → is_Some (Py.decimal x2) →
  is_Some (Py.decimal x3) → is_Some (Py.decimal x4) →
  Datetime.re_match Datetime.re_Y (x1 :: x2 :: x3 :: x4 :: s)
  = [([x1; x2; x3; x4], s)].
Proof.
  intros H1 H2 H3 H4. unfold Datetime.re_Y.
  rewrite !re_match_Digit_Cat, re_match_Digit by done.
  by rewrite !list_bind_singleton.
Qed.

Lemma format_match_year x1 x2 x3 x4 s :
  is_Some (Py.decimal x1) → is_Some (Py.decimal x2) →
  is_Some (Py.decimal x3) → is_Some (Py.decimal x4) →
  Datetime.format_match (x1 :: x2 :: x3 :: x4 :: s)
  = head (s1 ← Datetime.re_match (Datetime.Chr Datetime.dash) s;
          mm ← Datetime.re_match Datetime.re_m s1.2;
          s2 ← Datetime.re_match (Datetime.Chr Datetime.dash) mm.2;
          md ← Datetime.re_match Datetime.re_d s2.2;
          [Datetime.Found [x1; x2; x3; x4] mm.1 md.1 md.2]).
Proof.
  intros H1 H2 H3 H4. unfold Datetime.format_match.
  by rewrite re_match_Y, list_bind_singleton.
Qed.

Lemma int_year (y : Z) :
  0 ≤ y < 10000 →
  Py.int [digit_char (y / 1000); digit_char (y / 100); digit_char (y / 10);
          digit_char y] = Ok y.
Proof.
  intros Hy. unfold Py.int, Py.strip, Py.rstrip. simpl.
  rewrite isspace_digit_char. unfold reverse. simpl.
  rewrite isspace_digit_char. simpl.
  rewrite !decimal_digit_char. f_equal.
  pose proof (Z.div_mod y 10 ltac:(lia)).
  pose proof (Z.div_mod (y / 10) 10 ltac:(lia)).
  pose proof (Z.div_mod (y / 100) 10 ltac:(lia)).
  assert (y / 100 = y / 10 / 10) by (rewrite Z.div_div by lia; done).
  assert (y / 1000 = y / 100 / 10) by (rewrite Z.div_div by lia; done).
  assert (y / 1000 < 10) by (apply Z.div_lt_upper_bound; lia).
  assert (0 ≤ y / 1000) by (apply Z.div_pos; lia).
  rewrite (Z.mod_small (y / 1000)) by lia. lia.
Qed.

Ltac enum_cases H :=
  repeat (apply elem_of_cons in H as [-> | H]);
  [.. | by apply elem_of_nil in H].

Lemma int_two_digits (n : Z) :
  1 ≤ n ≤ 31 → Py.int [digit_char (n / 10); digit_char n] = Ok n.
Proof.
  intros Hn. assert (H : n ∈ seqZ 1 31) by (apply elem_of_seqZ; lia).
  vm_compute in H. enum_cases H; reflexivity.
Qed.

(** After the year, the pattern takes a two-digit month and a two-digit
    day and leaves nothing over. *)
Lemma format_match_month_day (g : pystr) (m d : Z) :
  1 ≤ m ≤ 12 → 1 ≤ d ≤ 31 →
  head (s1 ← Datetime.re_match (Datetime.Chr Datetime.dash)
               [Datetime.dash; digit_char (m / 10); digit_char m;
                Datetime.dash; digit_char (d / 10); digit_char d];
        mm ← Datetime.re_match Datetime.re_m s1.2;
        s2 ← Datetime.re_match (Datetime.Chr Datetime.dash) mm.2;
        md ← Datetime.re_match Datetime.re_d s2.2;
        [Datetime.Found g mm.1 md.1 md.2])
  = Some (Datetime.Found g [digit_char (m / 10); digit_char m]
            [digit_char (d / 10); digit_char d] []).
Proof.
  intros Hm Hd.
  assert (H1 : m ∈ seqZ 1 12) by (apply elem_of_seqZ; lia).
  assert (H2 : d ∈ seqZ 1 31) by (apply elem_of_seqZ; lia).
  vm_compute in H1, H2. enum_cases H1; enum_cases H2; reflexivity.
Qed.

Lemma mk_date_bounds y m d dt :
  Datetime.mk_date y m d = Ok dt → 1 ≤ y ≤ 9999 ∧ 1 ≤ m ≤ 12 ∧ 1 ≤ d ≤ 31.
Proof.
  unfold Datetime.mk_date, Datetime.MINYEAR, Datetime.MAXYEAR.
  destruct ((1 <=? y) && (y <=? 9999)) eqn:Ey; simpl; [|done].
  destruct ((1 <=? m) && (m <=? 12)) eqn:Em; simpl; [|done].
  destruct ((1 <=? d) && (d <=? Datetime.days_in_month y m)) eqn:Ed; simpl;
    [|done].
  intros _.
  apply andb_true_iff in Ey as [?%Z.leb_le ?%Z.leb_le].
  apply andb_true_iff in Em as [?%Z.leb_le ?%Z.leb_le].
  apply andb_true_iff in Ed as [?%Z.leb_le Hd%Z.leb_le].
  assert (Datetime.days_in_month y m ≤ 31); [|lia].
  unfold Datetime.days_in_month.
  repeat (match goal with |- context [if ?b then _ else _] => destruct b end);
    lia.
Qed.

(** A date the constructor accepts, written in ISO form, parses back to
    itself. *)
Lemma strptime_isoformat (d : date) :
  Datetime.mk_date (year d) (month d) (day d) = Ok d →
  Datetime.strptime_date (isoformat d) = Ok d.
Proof.
  intros Hd. destruct (mk_date_bounds _ _ _ _ Hd) as (Hy & Hm & Hdd).
  unfold Datetime.strptime_date, isoformat.
  rewrite format_match_year by (rewrite decimal_digit_char; eauto).
  rewrite format_match_month_day by done. simpl.
  rewrite int_year by lia. simpl.
  rewrite !int_two_digits by lia. simpl. exact Hd.
Qed.

(** C6. [parse_date] returns on every string and never raises: [None]
    for the empty string and for a string [strptime] rejects, and the
    parsed date otherwise, which is always a real calendar date; the ISO
    text [YYYY-MM-DD] of a calendar date parses to that date. *)
Theorem parse_date_total (value : pystr) :
  (∃ r, parse_date value = Ok r) ∧
  (value = [] → parse_date value = Ok None) ∧
  (∀ d, Datetime.strptime_date value = Ok d → parse_date value = Ok (Some d)) ∧
  (∀ e, Datetime.strptime_date value = Raise e → parse_date value = Ok None) ∧
  (∀ d, parse_date value = Ok (Some d) →
        Datetime.strptime_date value = Ok d ∧
        Datetime.mk_date (year d) (month d) (day d) = Ok d) ∧
  (∀ d, Datetime.mk_date (year d) (month d) (day d) = Ok d →
        value = isoformat d → parse_date value = Ok (Some d)).
Proof.
  rewrite parse_date_eq. split_and!.
  - eauto.
  - intros ->. reflexivity.
  - by intros d ->.
  - by intros e ->.
  - intros d. destruct (Datetime.strptime_date value) eqn:H; [|congruence].
    intros [= ->]. eauto using strptime_valid.
  - intros d Hd ->. by rewrite strptime_isoformat.
Qed.

Example parse_date_examples :
  parse_date (lit "1815-12-10") = Ok (Some (Date 1815 12 10)) ∧
  parse_date (lit "2024-02-29") = Ok (Some (Date 2024 2 29)) ∧
  parse_date (lit "2023-02-29") = Ok None ∧
  parse_date (lit "2024-13-01") = Ok None ∧
  parse_date (lit "10/12/1815") = Ok None ∧
  parse_date (lit "2024-01-01 ") = Ok None ∧
  parse_date (lit "0000-01-01") = Ok None ∧
  parse_date [] = Ok None.
Proof. vm_compute. repeat split. Qed.

(** ** Deleting a child through the wrong patient *)

(** C1. Deleting a visit, a medication or an allergy through the path of
    an existing patient that is not the record's owner answers 404 and
    leaves the store, and so the record, as it was. *)
Theorem delete_child_of_other_patient (s : Store) (patient_id child_id : Z) :
  is_Some (patients s !! patient_id) →
  (∀ v, visits s !! child_id = Some v →
        Visit.patient_id v ≠ patient_id →
        serve (delete_visit patient_id child_id) s = not_found s) ∧
  (∀ m, medications s !! child_id = Some m →
        Medication.patient_id m ≠ patient_id →
        serve (delete_medication patient_id child_id) s = not_found s) ∧
  (∀ a, allergies s !! child_id = Some a →
        Allergy.patient_id a ≠ patient_id →
        serve (delete_allergy patient_id child_id) s = not_found s).
Proof.
  intros [p Hp]. repeat split.
  - intros v Hv Hne. unfold delete_visit. run_handler.
    rewrite (get_or_404_found patients _ p) by done.
    rewrite (get_or_404_found visits _ v) by done.
    by rewrite bool_decide_eq_true_2.
  - intros m Hm Hne. unfold delete_medication. run_handler.
    rewrite (get_or_404_found patients _ p) by done.
    rewrite (get_or_404_found medications _ m) by done.
    by rewrite bool_decide_eq_true_2.
  - intros a Ha Hne. unfold delete_allergy. run_handler.
    rewrite (get_or_404_found patients _ p) by done.
    rewrite (get_or_404_found allergies _ a) by done.
    by rewrite bool_decide_eq_true_2.
Qed.

(** Visit 5 of patient 9 asked for under patient 7: 404, and visit 5 is
    still there. *)
Lemma delete_child_of_other_patient_clinic :
  serve (delete_visit 7 5) clinic = not_found clinic ∧
  serve (delete_medication 7 5) clinic = not_found clinic ∧
  serve (delete_allergy 7 5) clinic = not_found clinic ∧
  visits (store (serve (delete_visit 7 5) clinic)) !! 5
    = Some (Visit.mk 9 (Some (Date 2023 6 1)) None None).
Proof.
  assert (Hp : is_Some (patients clinic !! 7)) by (by eexists).
  destruct (delete_child_of_other_patient clinic 7 5 Hp) as (Hv & Hm & Ha).
  assert (H1 := Hv _ eq_refl ltac:(simpl; lia)).
  assert (H2 := Hm _ eq_refl ltac:(simpl; lia)).
  assert (H3 := Ha _ eq_refl ltac:(simpl; lia)).
  do 3 (split; [assumption|]).
  rewrite H1. reflexivity.
Defined.

(** ** Required fields *)

Lemma lstrip_empty s : Py.lstrip s = [] ↔ Forall (λ c, Py.isspace c = true) s.
Proof.
  induction s as [|c s IH]; simpl; [by split; [constructor|]|].
  destruct (Py.isspace c) eqn:E.
  - rewrite IH. split; [by constructor|by inversion 1].
  - split; [done|]. inversion 1; congruence.
Qed.

Lemma lstrip_head s c t : Py.lstrip s = c :: t → Py.isspace c = false.
Proof.
  induction s as [|x s IH]; simpl; [done|].
  destruct (Py.isspace x) eqn:E; [done|]. by intros [= <- _].
Qed.

(** A string is empty once stripped exactly when it holds nothing but
    whitespace. *)
Lemma strip_empty s : Py.strip s = [] ↔ Forall (λ c, Py.isspace c = true) s.
Proof.
  unfold Py.strip, Py.rstrip. rewrite <-lstrip_empty. split.
  - intros H. apply (f_equal reverse) in H.
    rewrite reverse_involutive, reverse_nil in H.
    destruct (Py.lstrip s) as [|c t] eqn:E; [done|].
    apply lstrip_empty in H. rewrite Forall_reverse in H.
    apply lstrip_head in E. inversion H; congruence.
  - by intros ->.
Qed.

(** C2. A patient-creation submission whose first or last name is empty
    once stripped stores nothing and redirects to the creation form with
    the message that both names are required. *)
Theorem new_patient_requires_names (s : Store) (request : Request) :
  method request = POST →
  Py.strip (form_get_d request "first_name" []) = []
  ∨ Py.strip (form_get_d request "last_name" []) = [] →
  serve (new_patient request) s
  = rejected url_new_patient "First and last name are required" s.
Proof.
  intros Hm Hblank. unfold new_patient. rewrite Hm.
  destruct Hblank as [-> | ->]; simpl; rewrite ?orb_true_r; reflexivity.
Qed.

Lemma new_patient_requires_names_blank :
  serve (new_patient (post [("first_name", lit "  "); ("last_name", [])]%string))
    clinic
  = rejected url_new_patient "First and last name are required" clinic.
Proof.
  apply new_patient_requires_names; [reflexivity | left; reflexivity].
Defined.

(** C8. With the owning patient in the store, an add-medication
    submission whose name is empty once stripped, and an add-allergy
    submission whose allergen is empty once stripped, store nothing and
    redirect to the patient's detail view with a message. *)
Theorem add_child_requires_field (s : Store) (request : Request) (patient_id : Z) :
  is_Some (patients s !! patient_id) →
  (Py.strip (default [] (form_get request "name")) = [] →
   serve (add_medication request patient_id) s
   = rejected (url_patient_detail patient_id) "Medication name is required" s) ∧
  (Py.strip (default [] (form_get request "allergen")) = [] →
   serve (add_allergy request patient_id) s
   = rejected (url_patient_detail patient_id) "Allergen is required" s).
Proof.
  intros [p Hp]. split; intros Hblank.
  - unfold add_medication. run_handler.
    rewrite (get_or_404_found patients _ p) by done.
    assert (Py.or_empty (form_get request "name")
            = default [] (form_get request "name")) as ->.
    { destruct (form_get request "name") as [[|]|]; reflexivity. }
    rewrite Hblank. reflexivity.
  - unfold add_allergy. run_handler.
    rewrite (get_or_404_found patients _ p) by done.
    assert (Py.or_empty (form_get request "allergen")
            = default [] (form_get request "allergen")) as ->.
    { destruct (form_get request "allergen") as [[|]|]; reflexivity. }
    rewrite Hblank. reflexivity.
Qed.

Lemma add_child_requires_field_clinic :
  serve (add_medication (post [("name", lit " "); ("dosage", lit "5mg")]%string) 7)
    clinic
  = rejected (url_patient_detail 7) "Medication name is required" clinic ∧
  serve (add_allergy (post [("reaction", lit "rash")]%string) 7) clinic
  = rejected (url_patient_detail 7) "Allergen is required" clinic.
Proof.
  assert (Hp : is_Some (patients clinic !! 7)) by (by eexists).
  destruct (add_child_requires_field clinic
              (post [("name", lit " "); ("dosage", lit "5mg")]%string) 7 Hp)
    as [Hm _].
  destruct (add_child_requires_field clinic
              (post [("reaction", lit "rash")]%string) 7 Hp) as [_ Ha].
  split; [apply Hm | apply Ha]; reflexivity.
Defined.

(** ** Fresh primary keys *)

Lemma max_id_bound {A} (t : gmap Z A) k :
  is_Some (t !! k) → ∃ m, max_id t = Some m ∧ k ≤ m.
Proof.
  unfold max_id. revert k.
  apply (map_fold_weak_ind (λ r (t : gmap Z A),
           ∀ k, is_Some (t !! k) → ∃ m, r = Some m ∧ k ≤ m)).
  - intros k [x Hx]. by rewrite lookup_empty in Hx.
  - intros i x m r Hi IH k Hk. destruct (decide (k = i)) as [->|Hne].
    + destruct r as [m0|]; eexists; split; try reflexivity; lia.
    + rewrite lookup_insert_ne in Hk by done.
      destruct (IH k Hk) as (m0 & -> & Hle).
      eexists; split; [reflexivity|]. lia.
Qed.

Lemma next_id_fresh {A} (t : gmap Z A) : t !! next_id t = None.
Proof.
  destruct (t !! next_id t) eqn:H; [|done].
  destruct (max_id_bound t (next_id t)) as (m & Hm & Hle); [by eexists|].
  unfold next_id in Hle. rewrite Hm in Hle. lia.
Qed.

(** ** Creating and editing patients *)

Lemma or_None_default (x : option pystr) :
  default [] x = [] → Py.or_None x = None.
Proof. destruct x as [[|]|]; simpl; congruence. Qed.

Lemma or_None_not_empty (x : option pystr) : Py.or_None x ≠ Some [].
Proof. destruct x as [[|]|]; simpl; congruence. Qed.

Lemma or_str_blank (x y : pystr) : x = [] → Py.or_str x y = y.
Proof. by intros ->. Qed.

Lemma or_str_not_empty (x y : pystr) : y ≠ [] → Py.or_str x y ≠ [].
Proof. by destruct x. Qed.

(** What a creation submission with both names present does. *)
Lemma new_patient_post (s : Store) (request : Request) :
  method request = POST →
  Py.strip (form_get_d request "first_name" []) ≠ [] →
  Py.strip (form_get_d request "last_name" []) ≠ [] →
  serve (new_patient request) s
  = mkOutcome (Ok (redirect (url_patient_detail (next_id (patients s))))) []
      (mkStore
         (<[next_id (patients s) :=
              Patient.mk (Py.strip (form_get_d request "first_name" []))
                (Py.strip (form_get_d request "last_name" []))
                (match Datetime.strptime_date
                         (form_get_d request "date_of_birth" []) with
                 | Ok d => Some d
                 | Raise _ => None
                 end)
                (Py.or_None (form_get request "sex"))
                (Py.or_None (form_get request "phone"))]> (patients s))
         (visits s) (medications s) (allergies s)).
Proof.
  intros Hm Hf Hl. unfold new_patient. rewrite Hm.
  destruct (Py.strip (form_get_d request "first_name" [])) eqn:Ef; [done|].
  destruct (Py.strip (form_get_d request "last_name" [])) eqn:El; [done|].
  simpl. run_handler. rewrite parse_date_eq. reflexivity.
Qed.

(** What an edit submission for a stored patient does. *)
Lemma edit_patient_post (s : Store) (request : Request) (patient_id : Z)
    (p : Patient.t) :
  patients s !! patient_id = Some p →
  method request = POST →
  serve (edit_patient request patient_id) s
  = mkOutcome (Ok (redirect (url_patient_detail patient_id))) []
      (mkStore
         (<[patient_id :=
              Patient.mk
                (Py.or_str (Py.strip (form_get_d request "first_name" []))
                   (Patient.first_name p))
                (Py.or_str (Py.strip (form_get_d request "last_name" []))
                   (Patient.last_name p))
                (Py.or_else
                   (match Datetime.strptime_date
                            (form_get_d request "date_of_birth" []) with
                    | Ok d => Some d
                    | Raise _ => None
                    end)
                   (Patient.date_of_birth p))
                (Py.or_None (form_get request "sex"))
                (Py.or_None (form_get request "phone"))]> (patients s))
         (visits s) (medications s) (allergies s)).
Proof.
  intros Hp Hm. unfold edit_patient. run_handler.
  rewrite (get_or_404_found patients _ p) by done.
  rewrite Hm. run_handler. rewrite parse_date_eq. reflexivity.
Qed.

Lemma strptime_unparseable value :
  value = [] ∨ (∀ d, Datetime.strptime_date value ≠ Ok d) →
  match Datetime.strptime_date value with
  | Ok d => Some d
  | Raise _ => None
  end = None.
Proof.
  intros [-> | H]; [reflexivity|].
  destruct (Datetime.strptime_date value) as [d|]; [|done]. by destruct (H d).
Qed.

(** C9. A creation submission with both names present stores a new
    patient and never fails; in the stored row an empty or unparseable
    date of birth is [None], and an empty (or missing) sex or phone is
    [None], never the empty string. *)
Theorem new_patient_blank_optional (s : Store) (request : Request) :
  method request = POST →
  Py.strip (form_get_d request "first_name" []) ≠ [] →
  Py.strip (form_get_d request "last_name" []) ≠ [] →
  ∃ id p,
    serve (new_patient request) s
    = mkOutcome (Ok (redirect (url_patient_detail id))) []
        (mkStore (<[id := p]> (patients s)) (visits s) (medications s)
           (allergies s)) ∧
    patients s !! id = None ∧
    (form_get_d request "date_of_birth" [] = []
     ∨ (∀ d, Datetime.strptime_date (form_get_d request "date_of_birth" []) ≠ Ok d) →
     Patient.date_of_birth p = None) ∧
    (default [] (form_get request "sex") = [] → Patient.sex p = None) ∧
    (default [] (form_get request "phone") = [] → Patient.phone p = None) ∧
    Patient.sex p ≠ Some [] ∧ Patient.phone p ≠ Some [].
Proof.
  intros Hm Hf Hl. eexists _, _. split; [by apply new_patient_post|].
  split; [apply next_id_fresh|]. simpl.
  split_and!; auto using strptime_unparseable, or_None_default, or_None_not_empty.
Qed.

Lemma new_patient_blank_optional_grace :
  ∃ id p,
    serve (new_patient
             (post [("first_name", lit "Grace"); ("last_name", lit "Hopper");
                    ("date_of_birth", lit "1906-13-09"); ("sex", []);
                    ("phone", [])]%string)) clinic
    = mkOutcome (Ok (redirect (url_patient_detail id))) []
        (mkStore (<[id := p]> (patients clinic)) (visits clinic)
           (medications clinic) (allergies clinic)) ∧
    Patient.date_of_birth p = None ∧ Patient.sex p = None ∧
    Patient.phone p = None.
Proof.
  destruct (new_patient_blank_optional clinic
              (post [("first_name", lit "Grace"); ("last_name", lit "Hopper");
                     ("date_of_birth", lit "1906-13-09"); ("sex", []);
                     ("phone", [])]%string))
    as (id & p & Hs & _ & Hd & Hsex & Hphone & _);
    [reflexivity | vm_compute; congruence | vm_compute; congruence |].
  exists id, p. split; [exact Hs|]. split_and!.
  - apply Hd. right. intros d. vm_compute. congruence.
  - apply Hsex. reflexivity.
  - apply Hphone. reflexivity.
Defined.

(** C4. An edit submission for a stored patient leaves the first name
    (the last name) as it was when the submitted one is empty once
    stripped, and leaves the date of birth as it was when the submitted
    string is empty or does not parse. *)
Theorem edit_patient_keeps_on_blank (s : Store) (request : Request)
    (patient_id : Z) (p : Patient.t) :
  patients s !! patient_id = Some p →
  method request = POST →
  ∃ p',
    patients (store (serve (edit_patient request patient_id) s)) !! patient_id
    = Some p' ∧
    (Py.strip (form_get_d request "first_name" []) = [] →
     Patient.first_name p' = Patient.first_name p) ∧
    (Py.strip (form_get_d request "last_name" []) = [] →
     Patient.last_name p' = Patient.last_name p) ∧
    (form_get_d request "date_of_birth" [] = []
     ∨ (∀ d, Datetime.strptime_date (form_get_d request "date_of_birth" []) ≠ Ok d) →
     Patient.date_of_birth p' = Patient.date_of_birth p).
Proof.
  intros Hp Hm. rewrite (edit_patient_post _ _ _ p) by done. simpl.
  eexists. split; [apply lookup_insert_eq|]. simpl. split_and!.
  - apply or_str_blank.
  - apply or_str_blank.
  - intros H. by rewrite strptime_unparseable.
Qed.

Lemma edit_patient_keeps_on_blank_ada :
  ∃ p',
    patients (store (serve (edit_patient
                              (post [("first_name", lit "Augusta");
                                     ("last_name", lit "  ");
                                     ("date_of_birth", lit "10/12/1815")]%string)
                              7) clinic)) !! 7 = Some p' ∧
    Patient.last_name p' = lit "Lovelace" ∧
    Patient.date_of_birth p' = Some (Date 1815 12 10).
Proof.
  destruct (edit_patient_keeps_on_blank clinic
              (post [("first_name", lit "Augusta"); ("last_name", lit "  ");
                     ("date_of_birth", lit "10/12/1815")]%string) 7 ada
              eq_refl eq_refl) as (p' & Hp' & _ & Hl & Hd).
  exists p'. split; [exact Hp'|]. split.
  - apply Hl. reflexivity.
  - apply Hd. right. intros d. vm_compute. congruence.
Defined.

(** C10. An edit submission for a stored patient always overwrites sex
    and phone with what was submitted, so an empty (or missing) sex or
    phone clears the stored value; first name, last name and date of
    birth keep their previous value on a blank submission, so an edit
    cannot clear them. *)
Theorem edit_patient_clears_sex_phone (s : Store) (request : Request)
    (patient_id : Z) (p : Patient.t) :
  patients s !! patient_id = Some p →
  method request = POST →
  ∃ p',
    patients (store (serve (edit_patient request patient_id) s)) !! patient_id
    = Some p' ∧
    Patient.sex p' = Py.or_None (form_get request "sex") ∧
    Patient.phone p' = Py.or_None (form_get request "phone") ∧
    (default [] (form_get request "sex") = [] → Patient.sex p' = None) ∧
    (default [] (form_get request "phone") = [] → Patient.phone p' = None) ∧
    (Py.strip (form_get_d request "first_name" []) = [] →
     Patient.first_name p' = Patient.first_name p) ∧
    (Py.strip (form_get_d request "last_name" []) = [] →
     Patient.last_name p' = Patient.last_name p) ∧
    (form_get_d request "date_of_birth" [] = [] →
     Patient.date_of_birth p' = Patient.date_of_birth p) ∧
    (Patient.first_name p ≠ [] → Patient.first_name p' ≠ []) ∧
    (Patient.last_name p ≠ [] → Patient.last_name p' ≠ []) ∧
    (is_Some (Patient.date_of_birth p) → is_Some (Patient.date_of_birth p')).
Proof.
  intros Hp Hm. rewrite (edit_patient_post _ _ _ p) by done. simpl.
  eexists. split; [apply lookup_insert_eq|]. simpl.
  split_and!; auto using or_None_default, or_str_blank, or_str_not_empty.
  - intros ->. reflexivity.
  - intros [d ->]. destruct (Datetime.strptime_date _); simpl; eauto.
Qed.

Lemma edit_patient_clears_sex_phone_ada :
  ∃ p',
    patients (store (serve (edit_patient (post [("sex", [])]%string) 7) clinic))
      !! 7 = Some p' ∧
    Patient.sex p' = None ∧ Patient.phone p' = None ∧
    Patient.first_name p' = lit "Ada" ∧ Patient.last_name p' = lit "Lovelace" ∧
    Patient.date_of_birth p' = Some (Date 1815 12 10).
Proof.
  destruct (edit_patient_clears_sex_phone clinic (post [("sex", [])]%string) 7
              ada eq_refl eq_refl)
    as (p' & Hp' & _ & _ & Hsex & Hphone & Hf & Hl & Hd & _).
  exists p'. split; [exact Hp'|]. split_and!.
  - apply Hsex. reflexivity.
  - apply Hphone. reflexivity.
  - apply Hf. reflexivity.
  - apply Hl. reflexivity.
  - apply Hd. reflexivity.
Defined.

(** Sex and phone are not stripped: a submission of spaces is stored as
    it is. *)
Example edit_patient_sex_spaces :
  Patient.sex <$>
    patients (store (serve (edit_patient (post [("sex", lit "  ")]%string) 7)
                       clinic)) !! 7
  = Some (Some (lit "  ")).
Proof. vm_compute. reflexivity. Qed.

(** ** Deleting a patient *)

Lemma delete_patient_found (s : Store) (patient_id : Z) :
  is_Some (patients s !! patient_id) →
  serve (delete_patient patient_id) s
  = mkOutcome (Ok (redirect url_index)) []
      (mkStore (delete patient_id (patients s))
         (filter (λ r, Visit.patient_id r.2 ≠ patient_id) (visits s))
         (filter (λ r, Medication.patient_id r.2 ≠ patient_id) (medications s))
         (filter (λ r, Allergy.patient_id r.2 ≠ patient_id) (allergies s))).
Proof.
  intros [p Hp]. unfold delete_patient, session_delete_patient. run_handler.
  by rewrite (get_or_404_found patients _ p) by done.
Qed.

Lemma patient_detail_missing (s : Store) (patient_id : Z) :
  patients s !! patient_id = None →
  serve (patient_detail patient_id) s = not_found s.
Proof.
  intros Hp. unfold patient_detail. run_handler.
  by rewrite get_or_404_missing by done.
Qed.

(** C3. Deleting a stored patient removes the patient's row and exactly
    the visits, medications and allergies whose owner is that patient;
    the rows of other patients stay as they were, and the detail view of
    the deleted id then answers 404. *)
Theorem delete_patient_cascades (s : Store) (patient_id : Z) :
  is_Some (patients s !! patient_id) →
  ∃ s',
    serve (delete_patient patient_id) s
    = mkOutcome (Ok (redirect url_index)) [] s' ∧
    patients s' !! patient_id = None ∧
    (∀ q, q ≠ patient_id → patients s' !! q = patients s !! q) ∧
    (∀ id v, visits s' !! id = Some v ↔
             visits s !! id = Some v ∧ Visit.patient_id v ≠ patient_id) ∧
    (∀ id m, medications s' !! id = Some m ↔
             medications s !! id = Some m ∧ Medication.patient_id m ≠ patient_id) ∧
    (∀ id a, allergies s' !! id = Some a ↔
             allergies s !! id = Some a ∧ Allergy.patient_id a ≠ patient_id) ∧
    serve (patient_detail patient_id) s' = not_found s'.
Proof.
  intros Hp. eexists. split; [by apply delete_patient_found|]. simpl.
  assert (Hgone : delete patient_id (patients s) !! patient_id = None)
    by apply lookup_delete_eq.
  split_and!.
  - exact Hgone.
  - intros q Hq. by apply lookup_delete_ne.
  - intros id v. by rewrite map_lookup_filter_Some.
  - intros id m. by rewrite map_lookup_filter_Some.
  - intros id a. by rewrite map_lookup_filter_Some.
  - by apply patient_detail_missing.
Qed.

(** Patient 7 of the sample store goes with two visits, one medication
    and one allergy; the records of patient 9 stay. *)
Lemma delete_patient_cascades_clinic :
  ∃ s',
    serve (delete_patient 7) clinic = mkOutcome (Ok (redirect url_index)) [] s' ∧
    patients s' !! 7 = None ∧
    visits s' !! 1 = None ∧ visits s' !! 2 = None ∧
    medications s' !! 1 = None ∧ allergies s' !! 1 = None ∧
    patients s' !! 9 = Some marie ∧
    visits s' !! 5 = Some (Visit.mk 9 (Some (Date 2023 6 1)) None None) ∧
    serve (patient_detail 7) s' = not_found s'.
Proof.
  assert (Hp : is_Some (patients clinic !! 7)) by (by eexists).
  destruct (delete_patient_cascades clinic 7 Hp)
    as (s' & Hs & Hgone & Hother & Hv & Hm & Ha & Hd).
  exists s'. split; [exact Hs|]. split; [exact Hgone|].
  assert (Hnone : ∀ {A} (t : gmap Z A) i, (∀ x, t !! i = Some x → False) →
                  t !! i = None).
  { intros A t i H. destruct (t !! i); [by destruct (H _ eq_refl)|done]. }
  split_and!.
  - apply Hnone. intros x Hx. apply Hv in Hx as [Hx Hne].
    injection Hx as <-. by apply Hne.
  - apply Hnone. intros x Hx. apply Hv in Hx as [Hx Hne].
    injection Hx as <-. by apply Hne.
  - apply Hnone. intros x Hx. apply Hm in Hx as [Hx Hne].
    injection Hx as <-. by apply Hne.
  - apply Hnone. intros x Hx. apply Ha in Hx as [Hx Hne].
    injection Hx as <-. by apply Hne.
  - rewrite Hother by lia. reflexivity.
  - apply Hv. split; [reflexivity|]. simpl. lia.
  - exact Hd.
Defined.

(** ** The patient list *)

Lemma str_compare_Eq a b : Sql.str_compare a b = Eq ↔ a = b.
Proof.
  revert b. induction a as [|x a IH]; intros [|y b]; simpl; try done.
  destruct (x ?= y)%N eqn:E.
  - apply N.compare_eq_iff in E as ->. rewrite IH.
    split; [by intros -> | by intros [=]].
  - split; [done|]. intros [= -> _]. by rewrite N.compare_refl in E.
  - split; [done|]. intros [= -> _]. by rewrite N.compare_refl in E.
Qed.

Lemma str_compare_Lt a b : Sql.str_compare a b = Lt ↔ str_lt a b.
Proof.
  split.
  - revert b. induction a as [|x a IH]; intros [|y b]; simpl; try done.
    + intros _. apply str_lt_nil.
    + destruct (x ?= y)%N eqn:E; try done.
      * apply N.compare_eq_iff in E as ->. intros H. apply str_lt_tail.
        by apply IH.
      * intros _. by apply str_lt_head.
  - induction 1 as [y b | x y a b Hxy | x a b _ IH]; simpl.
    + done.
    + apply N.compare_lt_iff in Hxy. by rewrite Hxy.
    + by rewrite N.compare_refl.
Qed.

Lemma str_compare_antisym a b :
  Sql.str_compare b a = CompOpp (Sql.str_compare a b).
Proof.
  revert b. induction a as [|x a IH]; intros [|y b]; simpl; try done.
  rewrite (N.compare_antisym x y). destruct (x ?= y)%N; simpl; auto.
Qed.

Lemma str_compare_Gt a b : Sql.str_compare a b = Gt ↔ str_lt b a.
Proof.
  rewrite <-str_compare_Lt, (str_compare_antisym a b).
  destruct (Sql.str_compare a b); simpl; naive_solver.
Qed.

Lemma str_lt_trans a b c : str_lt a b → str_lt b c → str_lt a c.
Proof.
  intros H. revert c. induction H as [y b | x y a b Hxy | x a b _ IH];
    intros c Hc; inversion Hc; subst;
    first [apply str_lt_nil | apply str_lt_head; lia | apply str_lt_tail; eauto].
Qed.

Lemma str_lt_irrefl a : ¬ str_lt a a.
Proof. induction a; inversion 1; subst; [lia | auto]. Qed.

(** The comparison [ORDER BY] makes is the order stated on its own. *)
Lemma name_le_order p q : Sql.name_le p q ↔ name_order p q.
Proof.
  unfold Sql.name_le, Sql.name_leb, name_order, str_le.
  destruct (Sql.str_compare (Patient.last_name p.2) (Patient.last_name q.2))
    eqn:El.
  - apply str_compare_Eq in El. rewrite El.
    destruct (Sql.str_compare (Patient.first_name p.2) (Patient.first_name q.2))
      eqn:Ef.
    + apply str_compare_Eq in Ef. naive_solver.
    + apply str_compare_Lt in Ef. naive_solver.
    + apply str_compare_Gt in Ef. split; [done|].
      intros [H | [_ [H | H]]].
      * by apply str_lt_irrefl in H.
      * destruct (str_lt_irrefl _ (str_lt_trans _ _ _ H Ef)).
      * rewrite H in Ef. by apply str_lt_irrefl in Ef.
  - apply str_compare_Lt in El. naive_solver.
  - apply str_compare_Gt in El. split; [done|].
    intros [H | [H _]].
    + destruct (str_lt_irrefl _ (str_lt_trans _ _ _ H El)).
    + rewrite H in El. by apply str_lt_irrefl in El.
Qed.

Global Instance name_order_trans : Transitive name_order.
Proof.
  intros p q r. unfold name_order, str_le.
  intros [H1 | [E1 H1]] [H2 | [E2 H2]].
  - left. eauto using str_lt_trans.
  - left. by rewrite <-E2.
  - left. by rewrite E1.
  - right. split; [congruence|].
    destruct H1 as [H1 | ->], H2 as [H2 | <-]; eauto using str_lt_trans.
Qed.

Global Instance name_le_trans : Transitive Sql.name_le.
Proof.
  intros p q r. rewrite !name_le_order. apply name_order_trans.
Qed.

Global Instance name_le_total : Total Sql.name_le.
Proof.
  intros p q. unfold Sql.name_le, Sql.name_leb.
  rewrite (str_compare_antisym (Patient.last_name p.2) (Patient.last_name q.2)).
  rewrite (str_compare_antisym (Patient.first_name p.2) (Patient.first_name q.2)).
  destruct (Sql.str_compare (Patient.last_name p.2) (Patient.last_name q.2));
    destruct (Sql.str_compare (Patient.first_name p.2) (Patient.first_name q.2));
    simpl; auto.
Qed.

Lemma StronglySorted_iff {A} (R S : relation A) l :
  (∀ x y, R x y ↔ S x y) → StronglySorted R l → StronglySorted S l.
Proof.
  intros HRS. induction 1 as [|x l _ IH Hx]; constructor; [done|].
  eapply Forall_impl; [exact Hx|]. intros y. apply HRS.
Qed.

Lemma rows_Permutation {A} (t : gmap Z A) : rows t ≡ₚ map_to_list t.
Proof. apply merge_sort_Permutation. Qed.

Lemma elem_of_rows {A} (t : gmap Z A) id x :
  (id, x) ∈ rows t ↔ t !! id = Some x.
Proof. by rewrite rows_Permutation, elem_of_map_to_list. Qed.

Lemma insert_row_Permutation x l : Sql.insert_row x l ≡ₚ x :: l.
Proof.
  induction l as [|y l IH]; simpl; [done|].
  destruct (Sql.name_leb y x); [|done].
  by rewrite IH, Permutation_swap.
Qed.

Lemma insert_row_sorted x l :
  StronglySorted Sql.name_le l → StronglySorted Sql.name_le (Sql.insert_row x l).
Proof.
  induction 1 as [|y l Hs IH Hy]; simpl; [repeat constructor|].
  destruct (Sql.name_leb y x) eqn:E.
  - constructor; [done|]. rewrite insert_row_Permutation. by constructor.
  - assert (Hxy : Sql.name_le x y).
    { destruct (name_le_total x y) as [H|H]; [done|].
      unfold Sql.name_le in H. congruence. }
    constructor; [by constructor|]. constructor; [done|].
    eapply Forall_impl; [exact Hy|]. intros z Hz. by trans y.
Qed.

Lemma foldl_insert_row acc l :
  StronglySorted Sql.name_le acc →
  foldl (λ sorted x, Sql.insert_row x sorted) acc l ≡ₚ acc ++ l ∧
  StronglySorted Sql.name_le (foldl (λ sorted x, Sql.insert_row x sorted) acc l).
Proof.
  revert acc. induction l as [|x l IH]; intros acc Hacc; simpl.
  - by rewrite app_nil_r.
  - destruct (IH (Sql.insert_row x acc)) as [Hp Hs];
      [by apply insert_row_sorted|].
    split; [|done]. rewrite Hp, insert_row_Permutation. simpl.
    apply Permutation_middle.
Qed.

(** The rows the list query returns are all the patients, each once,
    ordered by last name and, for equal last names, by first name. *)
Lemma order_by_name_sorted (s : Store) :
  Sql.order_by_name s ≡ₚ map_to_list (patients s) ∧
  (∀ id p, (id, p) ∈ Sql.order_by_name s ↔ patients s !! id = Some p) ∧
  StronglySorted name_order (Sql.order_by_name s).
Proof.
  destruct (foldl_insert_row [] (rows (patients s))) as [Hp Hs];
    [constructor|].
  assert (Hperm : Sql.order_by_name s ≡ₚ map_to_list (patients s)).
  { unfold Sql.order_by_name. by rewrite Hp, rows_Permutation. }
  split_and!.
  - exact Hperm.
  - intros id p. by rewrite Hperm, elem_of_map_to_list.
  - by apply (StronglySorted_iff Sql.name_le); [apply name_le_order|].
Qed.

(** Rows with equal names come in the order of their keys. *)
Example order_by_name_ties :
  Sql.order_by_name
    (mkStore (<[3 := ada]> (<[1 := ada]> (<[2 := ada]> (<[4 := marie]> ∅))))
       ∅ ∅ ∅)
  = [(4, marie); (1, ada); (2, ada); (3, ada)].
Proof. vm_compute. reflexivity. Qed.

(** ** Rendering *)

(** No template is called [base]: loading it raises. *)
Lemma get_template_base (c : Ctx) :
  get_template "base" c = (Raise (TemplateNotFound "base"), c).
Proof. reflexivity. Qed.

(** So every template of the program fails to render, before any of its
    blocks is evaluated, and leaves the request as it found it. *)
Lemma render_INDEX_HTML patients (c : Ctx) :
  render_template_string (INDEX_HTML patients) c
  = (Raise (TemplateNotFound "base"), c).
Proof. reflexivity. Qed.

Lemma render_PATIENT_FORM_HTML patient (c : Ctx) :
  render_template_string (PATIENT_FORM_HTML patient) c
  = (Raise (TemplateNotFound "base"), c).
Proof. reflexivity. Qed.

Lemma render_PATIENT_DETAIL_HTML patient (c : Ctx) :
  render_template_string (PATIENT_DETAIL_HTML patient) c
  = (Raise (TemplateNotFound "base"), c).
Proof. reflexivity. Qed.

(** C7 (where the code departs from the specification). In every state
    of the store the list route runs its query and then fails to render:
    [INDEX_HTML] extends a template named [base] that no loader holds,
    so the request ends in [TemplateNotFound] and returns no list. *)
Theorem index_template_not_found (s : Store) :
  serve index s = mkOutcome (Raise (TemplateNotFound "base")) [] s.
Proof. reflexivity. Qed.

(** ** The visits of the detail view *)

(** Keys of one kind (both dates, or both [None]) compare without error. *)
Lemma key_lt_same u v :
  undated u = undated v →
  ∃ b, Jinja.key_lt (Jinja.visit_key u) (Jinja.visit_key v) = Ok b.
Proof.
  unfold undated, Jinja.visit_key. simpl. unfold Jinja.attr_eq.
  destruct (Visit.visit_date u.2), (Visit.visit_date v.2); simpl;
    try done; intros _; try case_bool_decide; eauto.
Qed.

(** A date against [None] does not. *)
Lemma key_lt_mixed u v :
  undated u ≠ undated v →
  Jinja.key_lt (Jinja.visit_key u) (Jinja.visit_key v) = Raise TypeError.
Proof.
  unfold undated, Jinja.visit_key. simpl. unfold Jinja.attr_eq.
  destruct (Visit.visit_date u.2), (Visit.visit_date v.2); simpl; try done.
Qed.

Lemma insert_cons {A} (key : A → list (option date)) x y l :
  Jinja.insert key x (y :: l)
  = match Jinja.key_lt (key x) (key y) with
    | Raise e => Raise e
    | Ok true => Ok (x :: y :: l)
    | Ok false =>
        match Jinja.insert key x l with
        | Ok r => Ok (y :: r)
        | Raise e => Raise e
        end
    end.
Proof. reflexivity. Qed.

Lemma insertion_sort_cons {A} (key : A → list (option date)) done x todo :
  Jinja.insertion_sort key done (x :: todo)
  = match Jinja.insert key x done with
    | Ok done' => Jinja.insertion_sort key done' todo
    | Raise e => Raise e
    end.
Proof. reflexivity. Qed.

Lemma insert_same k x l :
  undated x = k → Forall (λ v, undated v = k) l →
  ∃ l', Jinja.insert Jinja.visit_key x l = Ok l' ∧ l' ≠ []
        ∧ Forall (λ v, undated v = k) l'.
Proof.
  intros Hx. induction 1 as [|y l Hy Hl IH].
  - eexists. split; [reflexivity|]. split; [done|]. by constructor.
  - rewrite insert_cons.
    destruct (key_lt_same x y) as [[] ->]; [congruence| |].
    + eexists. split; [reflexivity|]. split; [done|]. by repeat constructor.
    + destruct IH as (l' & -> & _ & Hl'). eexists. split; [reflexivity|].
      split; [done|]. by constructor.
Qed.

Lemma insert_mixed x y l :
  undated x ≠ undated y →
  Jinja.insert Jinja.visit_key x (y :: l) = Raise TypeError.
Proof. intros H. by rewrite insert_cons, key_lt_mixed. Qed.

Lemma insertion_sort_mixed k done todo :
  Forall (λ v, undated v = k) done → done ≠ [] →
  Exists (λ v, undated v ≠ k) todo →
  Jinja.insertion_sort Jinja.visit_key done todo = Raise TypeError.
Proof.
  intros Hdone Hne Hex. revert done Hdone Hne.
  induction todo as [|x todo IH]; intros done Hdone Hne; [by inversion Hex|].
  rewrite insertion_sort_cons. destruct (decide (undated x = k)) as [Hx|Hx].
  - destruct (insert_same k x done Hx Hdone) as (l' & -> & Hne' & Hl').
    apply IH; [|done..]. inversion Hex; subst; [done|assumption].
  - destruct done as [|y done]; [done|].
    rewrite insert_mixed; [done|]. inversion Hdone; subst. congruence.
Qed.

(** Sorting a list that holds a dated and an undated visit raises
    [TypeError]. *)
Lemma sort_visits_mixed (l : list (Z * Visit.t)) u v :
  u ∈ l → v ∈ l → undated u = true → undated v = false →
  Jinja.sort_visits l = Raise TypeError.
Proof.
  intros Hu Hv Eu Ev. unfold Jinja.sort_visits, Jinja.sorted.
  apply elem_of_reverse in Hu, Hv.
  destruct (reverse l) as [|x todo]; [by apply elem_of_nil in Hu|].
  change (Jinja.insertion_sort Jinja.visit_key [] (x :: todo))
    with (Jinja.insertion_sort Jinja.visit_key [x] todo).
  rewrite (insertion_sort_mixed (undated x)); [done|by repeat constructor|done|].
  apply Exists_exists. apply elem_of_cons in Hu, Hv.
  destruct (undated x) eqn:Ex.
  - exists v. destruct Hv as [Hv|Hv]; [congruence|]. split; [done|congruence].
  - exists u. destruct Hu as [Hu|Hu]; [congruence|]. split; [done|congruence].
Qed.

Lemma elem_of_patient_visits (s : Store) (patient_id id : Z) (v : Visit.t) :
  (id, v) ∈ patient_visits s patient_id ↔
  visits s !! id = Some v ∧ Visit.patient_id v = patient_id.
Proof.
  unfold patient_visits. rewrite list_elem_of_filter, elem_of_rows. simpl. tauto.
Qed.

(** C5 (where the code departs from the specification). For every
    stored patient the detail view fails to render: [PATIENT_DETAIL_HTML]
    extends a template named [base] that no loader holds, so the request
    ends in [TemplateNotFound] before the visits are sorted, whatever
    dates they have. *)
Theorem patient_detail_template_not_found (s : Store) (patient_id : Z) :
  is_Some (patients s !! patient_id) →
  serve (patient_detail patient_id) s
  = mkOutcome (Raise (TemplateNotFound "base")) [] s.
Proof.
  intros [p Hp]. unfold patient_detail, serve, mbind, M_bind.
  rewrite (get_or_404_found patients _ p) by done.
  by rewrite render_PATIENT_DETAIL_HTML.
Qed.

Lemma patient_detail_template_not_found_ward :
  serve (patient_detail 1) ward
  = mkOutcome (Raise (TemplateNotFound "base")) [] ward.
Proof.
  apply (patient_detail_template_not_found ward 1). by eexists.
Defined.

(** ** Visits that all have a date *)

Lemma date_lt_le a b : Jinja.date_lt a b = false ↔ date_le b a.
Proof.
  unfold Jinja.date_lt, date_le.
  rewrite orb_false_iff, andb_false_iff, orb_false_iff, andb_false_iff.
  rewrite !Z.ltb_ge, !Z.eqb_neq. lia.
Qed.

Lemma date_lt_true_le a b : Jinja.date_lt a b = true → date_le a b.
Proof.
  unfold Jinja.date_lt, date_le.
  rewrite orb_true_iff, andb_true_iff, orb_true_iff, andb_true_iff.
  rewrite !Z.ltb_lt, !Z.eqb_eq. lia.
Qed.

Lemma date_lt_irrefl a : Jinja.date_lt a a = false.
Proof. apply date_lt_le. unfold date_le. lia. Qed.

Global Instance visit_le_trans : Transitive visit_le.
Proof.
  intros u v w. unfold visit_le, date_le.
  destruct (Visit.visit_date u.2), (Visit.visit_date v.2),
    (Visit.visit_date w.2); try done. lia.
Qed.

Lemma key_lt_dated u v a b :
  Visit.visit_date u.2 = Some a → Visit.visit_date v.2 = Some b →
  Jinja.key_lt (Jinja.visit_key u) (Jinja.visit_key v) = Ok (Jinja.date_lt a b).
Proof.
  intros Hu Hv. unfold Jinja.visit_key. simpl. rewrite Hu, Hv.
  unfold Jinja.attr_eq. case_bool_decide as E; [|done].
  injection E as ->. by rewrite date_lt_irrefl.
Qed.

Lemma insert_dated x l :
  undated x = false → Forall (λ v, undated v = false) l →
  StronglySorted visit_le l →
  ∃ l', Jinja.insert Jinja.visit_key x l = Ok l' ∧ l' ≡ₚ x :: l
        ∧ StronglySorted visit_le l'.
Proof.
  intros Hx Hl Hs. induction Hs as [|y l Hs IH Hy].
  - eexists. split; [reflexivity|]. split; [done|]. repeat constructor.
  - apply Forall_cons in Hl as [Hy' Hl]. rewrite insert_cons.
    unfold undated in Hx, Hy'.
    destruct (Visit.visit_date x.2) as [a|] eqn:Ea;
      [|by rewrite bool_decide_eq_true_2 in Hx].
    destruct (Visit.visit_date y.2) as [b|] eqn:Eb;
      [|by rewrite bool_decide_eq_true_2 in Hy'].
    rewrite (key_lt_dated x y a b) by done.
    destruct (Jinja.date_lt a b) eqn:Eab.
    + eexists. split; [reflexivity|]. split; [done|].
      assert (Hxy : visit_le x y).
      { unfold visit_le. rewrite Ea, Eb. by apply date_lt_true_le. }
      constructor; [by constructor|]. constructor; [done|].
      eapply Forall_impl; [exact Hy|]. intros z Hz. by trans y.
    + destruct (IH Hl) as (r & -> & Hperm & Hr). eexists.
      split; [reflexivity|]. split; [by rewrite Hperm; apply Permutation_swap|].
      constructor; [done|]. rewrite Hperm. constructor; [|done].
      unfold visit_le. rewrite Ea, Eb. by apply date_lt_le.
Qed.

Lemma insertion_sort_dated done todo :
  Forall (λ v, undated v = false) done → Forall (λ v, undated v = false) todo →
  StronglySorted visit_le done →
  ∃ l, Jinja.insertion_sort Jinja.visit_key done todo = Ok l
       ∧ l ≡ₚ done ++ todo ∧ StronglySorted visit_le l.
Proof.
  intros Hdone Htodo. revert done Hdone.
  induction Htodo as [|x todo Hx Htodo IH]; intros done Hdone Hs.
  - exists done. by rewrite app_nil_r.
  - rewrite insertion_sort_cons.
    destruct (insert_dated x done Hx Hdone Hs) as (done' & -> & Hperm & Hs').
    destruct (IH done') as (l & -> & Hl & Hsl); [by rewrite Hperm; constructor|done|].
    exists l. split; [done|]. split; [|done].
    rewrite Hl, Hperm. simpl. apply Permutation_middle.
Qed.

Lemma StronglySorted_reverse {A} (R : relation A) l :
  StronglySorted R l → StronglySorted (flip R) (reverse l).
Proof.
  induction 1 as [|x l _ IH Hx]; [constructor|].
  rewrite reverse_cons. apply StronglySorted_app. split_and!.
  - intros y z Hy Hz. apply list_elem_of_singleton in Hz as ->.
    rewrite elem_of_reverse in Hy. unfold flip.
    rewrite Forall_forall in Hx. by apply Hx.
  - done.
  - repeat constructor.
Qed.

(** Visits that all have a date come out of the filter as the same
    visits, latest date first. *)
Lemma sort_visits_dated (l : list (Z * Visit.t)) :
  Forall (λ v, undated v = false) l →
  ∃ shown, Jinja.sort_visits l = Ok shown ∧ shown ≡ₚ l
           ∧ StronglySorted newest_first shown.
Proof.
  intros Hl. unfold Jinja.sort_visits, Jinja.sorted.
  destruct (insertion_sort_dated [] (reverse l)) as (r & -> & Hperm & Hs).
  - constructor.
  - by rewrite reverse_Permutation.
  - constructor.
  - exists (reverse r). split; [done|]. split.
    + by rewrite reverse_Permutation, Hperm, reverse_Permutation.
    + by apply StronglySorted_reverse.
Qed.

(** The store [ward] is what three submissions leave of an empty store:
    a new patient, a visit with a date, and a visit with the date left
    blank. *)
Example ward_reachable :
  let s0 := mkStore ∅ ∅ ∅ ∅ in
  let s1 :=
    store (serve (new_patient
                    (post [("first_name", lit "Ada"); ("last_name", lit "Lovelace");
                           ("date_of_birth", lit "1815-12-10"); ("sex", lit "F");
                           ("phone", lit "555-0100")]%string)) s0) in
  let s2 :=
    store (serve (add_visit
                    (post [("visit_date", lit "2024-01-10");
                           ("reason", lit "checkup"); ("notes", [])]%string) 1)
             s1) in
  let s3 :=
    store (serve (add_visit
                    (post [("visit_date", []); ("reason", lit "walk-in");
                           ("notes", [])]%string) 1) s2) in
  s3 = ward.
Proof. vm_compute. reflexivity. Qed.

(** * More of the program *)

(** ** Stripping *)

Lemma lstrip_app (w r : pystr) :
  Py.lstrip (w ++ r)
  = match Py.lstrip w with [] => Py.lstrip r | t => t ++ r end.
Proof.
  induction w as [|c w IH]; simpl; [reflexivity|].
  destruct (Py.isspace c); [exact IH | reflexivity].
Qed.

Lemma rstrip_cons (c : N) (u : pystr) :
  Py.rstrip (c :: u)
  = match Py.rstrip u with
    | [] => if Py.isspace c then [] else [c]
    | t => c :: t
    end.
Proof.
  unfold Py.rstrip. rewrite reverse_cons, lstrip_app.
  destruct (Py.lstrip (reverse u)) as [|x t] eqn:E.
  - simpl. by destruct (Py.isspace c).
  - rewrite reverse_app, reverse_singleton. simpl.
    destruct (reverse (x :: t)) eqn:E2; [|reflexivity].
    apply (f_equal length) in E2. by rewrite length_reverse in E2.
Qed.

Lemma rstrip_idem (u : pystr) : Py.rstrip (Py.rstrip u) = Py.rstrip u.
Proof.
  induction u as [|c u IH]; [reflexivity|]. rewrite rstrip_cons.
  destruct (Py.rstrip u) as [|x t] eqn:E.
  - destruct (Py.isspace c) eqn:Ec; [reflexivity|].
    rewrite rstrip_cons. change (Py.rstrip []) with (@nil N). by rewrite Ec.
  - rewrite rstrip_cons, IH. reflexivity.
Qed.

Lemma rstrip_head (c : N) (u : pystr) :
  Py.isspace c = false → Py.rstrip (c :: u) = c :: Py.rstrip u.
Proof.
  intros Hc. rewrite rstrip_cons, Hc. by destruct (Py.rstrip u).
Qed.

Lemma rstrip_app (w b : pystr) :
  b ≠ [] → Py.rstrip b = b → Py.rstrip (w ++ b) = w ++ b.
Proof.
  intros Hb Eb. induction w as [|c w IH]; [exact Eb|]. simpl.
  rewrite rstrip_cons, IH. destruct (w ++ b) eqn:E; [|reflexivity].
  by apply app_eq_nil in E as [_ ?].
Qed.

(** What [strip] returns, when not empty, is trimmed. *)
Lemma strip_trimmed (y : pystr) : Py.strip y ≠ [] → trimmed (Py.strip y).
Proof.
  intros Hne. split; [done|]. unfold Py.strip in *.
  destruct (Py.lstrip y) as [|c t] eqn:E; [done|].
  pose proof (lstrip_head _ _ _ E) as Hc.
  rewrite rstrip_head by done. simpl. rewrite Hc.
  rewrite <-rstrip_head by done. apply rstrip_idem.
Qed.

Lemma trimmed_head (x : pystr) :
  trimmed x → ∃ c t, x = c :: t ∧ Py.isspace c = false.
Proof.
  intros [Hne E]. unfold Py.strip in E.
  destruct (Py.lstrip x) as [|c t] eqn:El; [by rewrite <-E in Hne|].
  pose proof (lstrip_head _ _ _ El) as Hc.
  rewrite rstrip_head in E by done. eauto.
Qed.

Lemma trimmed_rstrip (x : pystr) : trimmed x → Py.rstrip x = x.
Proof.
  intros [_ E]. rewrite <-E at 1. unfold Py.strip.
  by rewrite rstrip_idem.
Qed.

(** A trimmed text is one whose first and last characters are not
    whitespace. *)
Lemma trimmed_ends (x : pystr) :
  trimmed x ↔
  ∃ c, head x = Some c ∧ Py.isspace c = false
       ∧ ∃ c', last x = Some c' ∧ Py.isspace c' = false.
Proof.
  split.
  - intros H. destruct (trimmed_head x H) as (c & t & -> & Hc).
    exists c. split; [done|]. split; [done|].
    apply trimmed_rstrip in H. unfold Py.rstrip in H.
    destruct (reverse (c :: t)) as [|c' r] eqn:Er.
    { apply (f_equal length) in Er. by rewrite length_reverse in Er. }
    exists c'. split.
    + rewrite <-(reverse_involutive (c :: t)), Er, reverse_cons.
      apply last_snoc.
    + simpl in H. destruct (Py.isspace c') eqn:Ec'; [|done].
      apply (f_equal length) in H. rewrite length_reverse in H.
      assert (length (Py.lstrip r) ≤ length r)%nat.
      { clear. induction r as [|a r IH]; simpl; [done|].
        destruct (Py.isspace a); simpl; lia. }
      apply (f_equal length) in Er. rewrite length_reverse in Er.
      simpl in *. lia.
  - intros (c & Hh & Hc & c' & Hl & Hc').
    destruct x as [|c0 t]; [done|]. injection Hh as ->.
    split; [done|]. unfold Py.strip. simpl. rewrite Hc.
    unfold Py.rstrip.
    destruct (reverse (c :: t)) as [|a r] eqn:Er.
    { apply (f_equal length) in Er. by rewrite length_reverse in Er. }
    assert (a = c') as ->.
    { rewrite <-(reverse_involutive (c :: t)), Er, reverse_cons, last_snoc in Hl.
      congruence. }
    simpl. rewrite Hc'. by rewrite <-Er, reverse_involutive.
Qed.

(** ** The name shown for a patient *)

(** X1. For a patient whose first and last name are trimmed, as the
    forms store them, the full name is the first name, one space and
    the last name: the final [strip] removes nothing. *)
Theorem full_name_joined (p : Patient.t) :
  trimmed (Patient.first_name p) → trimmed (Patient.last_name p) →
  full_name p
  = Patient.first_name p ++ [Datetime.space] ++ Patient.last_name p.
Proof.
  intros Hf Hl. unfold full_name, Py.strip.
  destruct (trimmed_head _ Hf) as (c & t & E & Hc). rewrite E. simpl.
  rewrite Hc.
  replace (c :: t ++ Datetime.space :: Patient.last_name p)
    with ((c :: t ++ [Datetime.space]) ++ Patient.last_name p)
    by (simpl; by rewrite <-(assoc_L (++))).
  apply rstrip_app; [by destruct Hl | by apply trimmed_rstrip].
Qed.

Lemma full_name_joined_ada : full_name ada = lit "Ada Lovelace".
Proof.
  apply (full_name_joined ada); split; done.
Defined.

(** ** Looking rows up *)

Lemma serve_found {A} (table : Store → gmap Z A) id row
    (k : A → M Response) (s : Store) :
  table s !! id = Some row →
  serve (get_or_404 table id ≫= k) s = serve (k row) s.
Proof.
  intros H. unfold serve, mbind, M_bind.
  by rewrite (get_or_404_found table id row).
Qed.

Lemma serve_missing {A} (table : Store → gmap Z A) id
    (k : A → M Response) (s : Store) :
  table s !! id = None →
  serve (get_or_404 table id ≫= k) s = not_found s.
Proof.
  intros H. unfold serve, mbind, M_bind.
  by rewrite (get_or_404_missing table id).
Qed.

Lemma parsed_real_date value :
  real_date (match Datetime.strptime_date value with
             | Ok d => Some d
             | Raise _ => None
             end).
Proof.
  intros d. destruct (Datetime.strptime_date value) eqn:E; [|done].
  intros [= ->]. by apply (strptime_valid value).
Qed.

Lemma or_None_filled (x : option pystr) : filled (Py.or_None x).
Proof. apply or_None_not_empty. Qed.

(** ** What the child routes store and remove *)

Lemma add_visit_post (s : Store) (request : Request) (patient_id : Z) :
  is_Some (patients s !! patient_id) →
  serve (add_visit request patient_id) s
  = mkOutcome (Ok (redirect (url_patient_detail patient_id))) []
      (mkStore (patients s)
         (<[next_id (visits s) :=
              Visit.mk patient_id
                (match Datetime.strptime_date
                         (form_get_d request "visit_date" []) with
                 | Ok d => Some d
                 | Raise _ => None
                 end)
                (Py.or_None (form_get request "reason"))
                (Py.or_None (form_get request "notes"))]> (visits s))
         (medications s) (allergies s)).
Proof.
  intros [p Hp]. unfold add_visit. rewrite (serve_found patients _ p) by done.
  run_handler. rewrite parse_date_eq. reflexivity.
Qed.

Lemma add_medication_post (s : Store) (request : Request) (patient_id : Z) :
  is_Some (patients s !! patient_id) →
  Py.strip (default [] (form_get request "name")) ≠ [] →
  serve (add_medication request patient_id) s
  = mkOutcome (Ok (redirect (url_patient_detail patient_id))) []
      (mkStore (patients s) (visits s)
         (<[next_id (medications s) :=
              Medication.mk patient_id
                (Py.strip (default [] (form_get request "name")))
                (Py.or_None (form_get request "dosage"))
                (Py.or_None (form_get request "frequency"))]> (medications s))
         (allergies s)).
Proof.
  intros [p Hp] Hne. unfold add_medication.
  rewrite (serve_found patients _ p) by done.
  assert (Py.or_empty (form_get request "name")
          = default [] (form_get request "name")) as ->.
  { destruct (form_get request "name") as [[|]|]; reflexivity. }
  destruct (Py.strip (default [] (form_get request "name"))); [done|].
  reflexivity.
Qed.

Lemma add_allergy_post (s : Store) (request : Request) (patient_id : Z) :
  is_Some (patients s !! patient_id) →
  Py.strip (default [] (form_get request "allergen")) ≠ [] →
  serve (add_allergy request patient_id) s
  = mkOutcome (Ok (redirect (url_patient_detail patient_id))) []
      (mkStore (patients s) (visits s) (medications s)
         (<[next_id (allergies s) :=
              Allergy.mk patient_id
                (Py.strip (default [] (form_get request "allergen")))
                (Py.or_None (form_get request "reaction"))
                (Py.or_None (form_get request "severity"))]> (allergies s))).
Proof.
  intros [p Hp] Hne. unfold add_allergy.
  rewrite (serve_found patients _ p) by done.
  assert (Py.or_empty (form_get request "allergen")
          = default [] (form_get request "allergen")) as ->.
  { destruct (form_get request "allergen") as [[|]|]; reflexivity. }
  destruct (Py.strip (default [] (form_get request "allergen"))); [done|].
  reflexivity.
Qed.

Lemma add_medication_blank (s : Store) (request : Request) (patient_id : Z) :
  is_Some (patients s !! patient_id) →
  Py.strip (default [] (form_get request "name")) = [] →
  serve (add_medication request patient_id) s
  = rejected (url_patient_detail patient_id) "Medication name is required" s.
Proof.
  intros [p Hp] Hb. unfold add_medication.
  rewrite (serve_found patients _ p) by done.
  assert (Py.or_empty (form_get request "name")
          = default [] (form_get request "name")) as ->.
  { destruct (form_get request "name") as [[|]|]; reflexivity. }
  rewrite Hb. reflexivity.
Qed.

Lemma add_allergy_blank (s : Store) (request : Request) (patient_id : Z) :
  is_Some (patients s !! patient_id) →
  Py.strip (default [] (form_get request "allergen")) = [] →
  serve (add_allergy request patient_id) s
  = rejected (url_patient_detail patient_id) "Allergen is required" s.
Proof.
  intros [p Hp] Hb. unfold add_allergy.
  rewrite (serve_found patients _ p) by done.
  assert (Py.or_empty (form_get request "allergen")
          = default [] (form_get request "allergen")) as ->.
  { destruct (form_get request "allergen") as [[|]|]; reflexivity. }
  rewrite Hb. reflexivity.
Qed.

Lemma delete_visit_found (s : Store) (patient_id visit_id : Z) (v : Visit.t) :
  is_Some (patients s !! patient_id) →
  visits s !! visit_id = Some v → Visit.patient_id v = patient_id →
  serve (delete_visit patient_id visit_id) s
  = mkOutcome (Ok (redirect (url_patient_detail patient_id))) []
      (mkStore (patients s) (delete visit_id (visits s)) (medications s)
         (allergies s)).
Proof.
  intros [p Hp] Hv Ho. unfold delete_visit.
  rewrite (serve_found patients _ p), (serve_found visits _ v) by done.
  by rewrite bool_decide_eq_false_2 by (intros H; by apply H).
Qed.

Lemma delete_medication_found (s : Store) (patient_id medication_id : Z)
    (m : Medication.t) :
  is_Some (patients s !! patient_id) →
  medications s !! medication_id = Some m →
  Medication.patient_id m = patient_id →
  serve (delete_medication patient_id medication_id) s
  = mkOutcome (Ok (redirect (url_patient_detail patient_id))) []
      (mkStore (patients s) (visits s) (delete medication_id (medications s))
         (allergies s)).
Proof.
  intros [p Hp] Hm Ho. unfold delete_medication.
  rewrite (serve_found patients _ p), (serve_found medications _ m) by done.
  by rewrite bool_decide_eq_false_2 by (intros H; by apply H).
Qed.

Lemma delete_allergy_found (s : Store) (patient_id allergy_id : Z)
    (a : Allergy.t) :
  is_Some (patients s !! patient_id) →
  allergies s !! allergy_id = Some a →
  Allergy.patient_id a = patient_id →
  serve (delete_allergy patient_id allergy_id) s
  = mkOutcome (Ok (redirect (url_patient_detail patient_id))) []
      (mkStore (patients s) (visits s) (medications s)
         (delete allergy_id (allergies s))).
Proof.
  intros [p Hp] Ha Ho. unfold delete_allergy.
  rewrite (serve_found patients _ p), (serve_found allergies _ a) by done.
  by rewrite bool_decide_eq_false_2 by (intros H; by apply H).
Qed.

Lemma or_None_given (x : option pystr) (c : N) (t : pystr) :
  x = Some (c :: t) → Py.or_None x = Some (c :: t).
Proof. by intros ->. Qed.

(** X2. A visit has no required field: with the patient stored, every
    add-visit submission, even an empty one, stores exactly one new
    visit owned by that patient under an unused id, flashes nothing and
    redirects to the patient's detail view.  The date is the parsed
    date, or [None] when it does not parse; reason and notes are [None]
    when empty or missing and the submitted text otherwise. *)
Theorem add_visit_stores (s : Store) (request : Request) (patient_id : Z) :
  is_Some (patients s !! patient_id) →
  ∃ id v,
    serve (add_visit request patient_id) s
    = mkOutcome (Ok (redirect (url_patient_detail patient_id))) []
        (mkStore (patients s) (<[id := v]> (visits s)) (medications s)
           (allergies s)) ∧
    visits s !! id = None ∧
    Visit.patient_id v = patient_id ∧
    (∀ d, Datetime.strptime_date (form_get_d request "visit_date" []) = Ok d →
          Visit.visit_date v = Some d) ∧
    ((∀ d, Datetime.strptime_date (form_get_d request "visit_date" []) ≠ Ok d) →
     Visit.visit_date v = None) ∧
    (default [] (form_get request "reason") = [] → Visit.reason v = None) ∧
    (∀ c t, form_get request "reason" = Some (c :: t) →
            Visit.reason v = Some (c :: t)) ∧
    (default [] (form_get request "notes") = [] → Visit.notes v = None) ∧
    (∀ c t, form_get request "notes" = Some (c :: t) →
            Visit.notes v = Some (c :: t)).
Proof.
  intros Hp. eexists _, _. split; [by apply add_visit_post|].
  split; [apply next_id_fresh|]. simpl.
  split_and!; auto using or_None_default, or_None_given.
  - by intros d ->.
  - intros H. apply strptime_unparseable. by right.
Qed.

Lemma add_visit_stores_empty_form :
  ∃ id v,
    serve (add_visit (post []) 7) clinic
    = mkOutcome (Ok (redirect (url_patient_detail 7))) []
        (mkStore (patients clinic) (<[id := v]> (visits clinic))
           (medications clinic) (allergies clinic)) ∧
    visits clinic !! id = None ∧
    v = Visit.mk 7 None None None.
Proof.
  assert (Hp : is_Some (patients clinic !! 7)) by (by eexists).
  destruct (add_visit_stores clinic (post []) 7 Hp)
    as (id & v & Hs & Hfresh & Ho & _ & Hd & Hr & _ & Hn & _).
  exists id, v. split; [exact Hs|]. split; [exact Hfresh|].
  destruct v as [o d r n]. simpl in *. f_equal.
  - exact Ho.
  - apply Hd. intros d'. vm_compute. congruence.
  - by apply Hr.
  - by apply Hn.
Defined.

(** X3. With the patient stored and a name that is not empty once
    stripped, an add-medication submission stores exactly one new
    medication owned by that patient under an unused id, with the
    stripped name, and with dosage and frequency [None] when empty or
    missing; it flashes nothing and redirects to the detail view. *)
Theorem add_medication_stores (s : Store) (request : Request)
    (patient_id : Z) :
  is_Some (patients s !! patient_id) →
  Py.strip (default [] (form_get request "name")) ≠ [] →
  ∃ id m,
    serve (add_medication request patient_id) s
    = mkOutcome (Ok (redirect (url_patient_detail patient_id))) []
        (mkStore (patients s) (visits s) (<[id := m]> (medications s))
           (allergies s)) ∧
    medications s !! id = None ∧
    Medication.patient_id m = patient_id ∧
    Medication.name m = Py.strip (default [] (form_get request "name")) ∧
    trimmed (Medication.name m) ∧
    (default [] (form_get request "dosage") = [] → Medication.dosage m = None) ∧
    (∀ c t, form_get request "dosage" = Some (c :: t) →
            Medication.dosage m = Some (c :: t)) ∧
    (default [] (form_get request "frequency") = [] →
     Medication.frequency m = None) ∧
    (∀ c t, form_get request "frequency" = Some (c :: t) →
            Medication.frequency m = Some (c :: t)).
Proof.
  intros Hp Hne. eexists _, _. split; [by apply add_medication_post|].
  split; [apply next_id_fresh|]. simpl.
  split_and!; auto using or_None_default, or_None_given, strip_trimmed.
Qed.

Lemma add_medication_stores_clinic :
  ∃ id m,
    serve (add_medication
             (post [("name", lit " ibuprofen "); ("dosage", lit "200mg");
                    ("frequency", [])]%string) 9) clinic
    = mkOutcome (Ok (redirect (url_patient_detail 9))) []
        (mkStore (patients clinic) (visits clinic)
           (<[id := m]> (medications clinic)) (allergies clinic)) ∧
    m = Medication.mk 9 (lit "ibuprofen") (Some (lit "200mg")) None.
Proof.
  assert (Hp : is_Some (patients clinic !! 9)) by (by eexists).
  destruct (add_medication_stores clinic
              (post [("name", lit " ibuprofen "); ("dosage", lit "200mg");
                     ("frequency", [])]%string) 9 Hp)
    as (id & m & Hs & _ & Ho & Hn & _ & _ & Hd & Hf & _);
    [vm_compute; congruence|].
  exists id, m. split; [exact Hs|].
  destruct m as [o n d f]. simpl in *. f_equal.
  - exact Ho.
  - exact Hn.
  - by eapply Hd.
  - by apply Hf.
Defined.

(** X4. With the patient stored and an allergen that is not empty once
    stripped, an add-allergy submission stores exactly one new allergy
    owned by that patient under an unused id, with the stripped
    allergen, and with reaction and severity [None] when empty or
    missing; it flashes nothing and redirects to the detail view. *)
Theorem add_allergy_stores (s : Store) (request : Request) (patient_id : Z) :
  is_Some (patients s !! patient_id) →
  Py.strip (default [] (form_get request "allergen")) ≠ [] →
  ∃ id a,
    serve (add_allergy request patient_id) s
    = mkOutcome (Ok (redirect (url_patient_detail patient_id))) []
        (mkStore (patients s) (visits s) (medications s)
           (<[id := a]> (allergies s))) ∧
    allergies s !! id = None ∧
    Allergy.patient_id a = patient_id ∧
    Allergy.allergen a = Py.strip (default [] (form_get request "allergen")) ∧
    trimmed (Allergy.allergen a) ∧
    (default [] (form_get request "reaction") = [] → Allergy.reaction a = None) ∧
    (∀ c t, form_get request "reaction" = Some (c :: t) →
            Allergy.reaction a = Some (c :: t)) ∧
    (default [] (form_get request "severity") = [] →
     Allergy.severity a = None) ∧
    (∀ c t, form_get request "severity" = Some (c :: t) →
            Allergy.severity a = Some (c :: t)).
Proof.
  intros Hp Hne. eexists _, _. split; [by apply add_allergy_post|].
  split; [apply next_id_fresh|]. simpl.
  split_and!; auto using or_None_default, or_None_given, strip_trimmed.
Qed.

Lemma add_allergy_stores_clinic :
  ∃ id a,
    serve (add_allergy
             (post [("allergen", lit "peanuts"); ("severity", lit "high")]%string)
             9) clinic
    = mkOutcome (Ok (redirect (url_patient_detail 9))) []
        (mkStore (patients clinic) (visits clinic) (medications clinic)
           (<[id := a]> (allergies clinic))) ∧
    a = Allergy.mk 9 (lit "peanuts") None (Some (lit "high")).
Proof.
  assert (Hp : is_Some (patients clinic !! 9)) by (by eexists).
  destruct (add_allergy_stores clinic
              (post [("allergen", lit "peanuts"); ("severity", lit "high")]%string)
              9 Hp)
    as (id & a & Hs & _ & Ho & Hn & _ & Hr & _ & _ & Hv);
    [vm_compute; congruence|].
  exists id, a. split; [exact Hs|].
  destruct a as [o n r v]. simpl in *. f_equal.
  - exact Ho.
  - exact Hn.
  - by apply Hr.
  - by eapply Hv.
Defined.

(** X5. Deleting a visit, a medication or an allergy through its own,
    stored patient removes that one row, leaves every other row of every
    table as it was, flashes nothing and redirects to the patient's
    detail view. *)
Theorem delete_child_removes (s : Store) (patient_id child_id : Z) :
  is_Some (patients s !! patient_id) →
  (∀ v, visits s !! child_id = Some v → Visit.patient_id v = patient_id →
        ∃ s', serve (delete_visit patient_id child_id) s
              = mkOutcome (Ok (redirect (url_patient_detail patient_id))) [] s' ∧
              visits s' !! child_id = None ∧
              (∀ j, j ≠ child_id → visits s' !! j = visits s !! j) ∧
              patients s' = patients s ∧ medications s' = medications s ∧
              allergies s' = allergies s) ∧
  (∀ m, medications s !! child_id = Some m →
        Medication.patient_id m = patient_id →
        ∃ s', serve (delete_medication patient_id child_id) s
              = mkOutcome (Ok (redirect (url_patient_detail patient_id))) [] s' ∧
              medications s' !! child_id = None ∧
              (∀ j, j ≠ child_id → medications s' !! j = medications s !! j) ∧
              patients s' = patients s ∧ visits s' = visits s ∧
              allergies s' = allergies s) ∧
  (∀ a, allergies s !! child_id = Some a →
        Allergy.patient_id a = patient_id →
        ∃ s', serve (delete_allergy patient_id child_id) s
              = mkOutcome (Ok (redirect (url_patient_detail patient_id))) [] s' ∧
              allergies s' !! child_id = None ∧
              (∀ j, j ≠ child_id → allergies s' !! j = allergies s !! j) ∧
              patients s' = patients s ∧ visits s' = visits s ∧
              medications s' = medications s).
Proof.
  intros Hp. split_and!.
  - intros v Hv Ho. eexists. split; [by eapply delete_visit_found|]. simpl.
    split_and!; try done; [apply lookup_delete_eq|].
    intros j Hj. by apply lookup_delete_ne.
  - intros m Hm Ho. eexists. split; [by eapply delete_medication_found|]. simpl.
    split_and!; try done; [apply lookup_delete_eq|].
    intros j Hj. by apply lookup_delete_ne.
  - intros a Ha Ho. eexists. split; [by eapply delete_allergy_found|]. simpl.
    split_and!; try done; [apply lookup_delete_eq|].
    intros j Hj. by apply lookup_delete_ne.
Qed.

Lemma delete_child_removes_clinic :
  ∃ s', serve (delete_visit 7 2) clinic
        = mkOutcome (Ok (redirect (url_patient_detail 7))) [] s' ∧
        visits s' !! 2 = None ∧
        visits s' !! 1 = visits clinic !! 1 ∧
        visits s' !! 5 = visits clinic !! 5.
Proof.
  assert (Hp : is_Some (patients clinic !! 7)) by (by eexists).
  destruct (delete_child_removes clinic 7 2 Hp) as [Hv _].
  destruct (Hv _ eq_refl eq_refl) as (s' & Hs & Hgone & Hrest & _).
  exists s'. split; [exact Hs|]. split; [exact Hgone|].
  split; apply Hrest; lia.
Defined.



(** X7. Deleting, through a stored patient, a visit, a medication or an
    allergy whose id SQLite can hold but which is not in its table is
    answered 404 and stores and flashes nothing. *)
Theorem missing_child_not_found (s : Store) (patient_id child_id : Z) :
  is_Some (patients s !! patient_id) →
  sqlite_integer child_id →
  (visits s !! child_id = None →
   serve (delete_visit patient_id child_id) s = not_found s) ∧
  (medications s !! child_id = None →
   serve (delete_medication patient_id child_id) s = not_found s) ∧
  (allergies s !! child_id = None →
   serve (delete_allergy patient_id child_id) s = not_found s).
Proof.
  intros [p Hp] _. split_and!; intros H.
  - unfold delete_visit. rewrite (serve_found patients _ p) by done.
    by apply (serve_missing visits).
  - unfold delete_medication. rewrite (serve_found patients _ p) by done.
    by apply (serve_missing medications).
  - unfold delete_allergy. rewrite (serve_found patients _ p) by done.
    by apply (serve_missing allergies).
Qed.

Lemma missing_child_not_found_clinic :
  serve (delete_visit 7 3) clinic = not_found clinic ∧
  serve (delete_medication 7 2) clinic = not_found clinic ∧
  serve (delete_allergy 7 2) clinic = not_found clinic.
Proof.
  assert (Hp : is_Some (patients clinic !! 7)) by (by eexists).
  assert (H3 : sqlite_integer 3) by (unfold sqlite_integer; lia).
  assert (H2 : sqlite_integer 2) by (unfold sqlite_integer; lia).
  destruct (missing_child_not_found clinic 7 3 Hp H3) as (Hv & _).
  destruct (missing_child_not_found clinic 7 2 Hp H2) as (_ & Hm & Ha).
  split_and!; [apply Hv | apply Hm | apply Ha]; reflexivity.
Defined.

(** ** What one request can do to the store *)

Lemma index_store (s : Store) : store (serve index s) = s.
Proof. reflexivity. Qed.

Lemma patient_detail_store (patient_id : Z) (s : Store) :
  store (serve (patient_detail patient_id) s) = s.
Proof.
  unfold patient_detail.
  destruct (patients s !! patient_id) as [p|] eqn:Hp.
  - by rewrite (serve_found patients _ p).
  - by rewrite (serve_missing patients).
Qed.

Lemma new_patient_effect (request : Request) (s : Store) :
  effect s (store (serve (new_patient request) s)).
Proof.
  destruct (method request) eqn:Hm;
    try (unfold new_patient; rewrite Hm; apply effect_none).
  destruct (decide (Py.strip (form_get_d request "first_name" []) = []))
    as [Hf|Hf].
  { unfold new_patient. rewrite Hm, Hf. apply effect_none. }
  destruct (decide (Py.strip (form_get_d request "last_name" []) = []))
    as [Hl|Hl].
  { unfold new_patient. rewrite Hm, Hl. simpl. rewrite orb_true_r.
    apply effect_none. }
  rewrite new_patient_post by done. simpl. apply effect_put_patient.
  intros _. split_and!; simpl;
    auto using strip_trimmed, parsed_real_date, or_None_filled.
Qed.

Lemma or_str_trimmed (x old : pystr) :
  trimmed old → trimmed (Py.or_str (Py.strip x) old).
Proof.
  intros Hold. unfold Py.or_str.
  destruct (Py.strip x) eqn:E; simpl; [done|].
  rewrite <-E. apply strip_trimmed. by rewrite E.
Qed.

Lemma or_else_real_date (x old : option date) :
  real_date x → real_date old → real_date (Py.or_else x old).
Proof. by destruct x. Qed.

Lemma edit_patient_effect (request : Request) (patient_id : Z) (s : Store) :
  effect s (store (serve (edit_patient request patient_id) s)).
Proof.
  destruct (patients s !! patient_id) as [p|] eqn:Hp.
  - destruct (method request) eqn:Hm;
      try (unfold edit_patient; rewrite (serve_found patients _ p) by done;
           rewrite Hm; apply effect_none).
    rewrite (edit_patient_post _ _ _ p) by done. simpl.
    apply effect_put_patient. intros Hold.
    destruct (Hold p Hp) as (H1 & H2 & H3 & _).
    split_and!; simpl;
      auto using or_str_trimmed, or_else_real_date, parsed_real_date,
        or_None_filled.
  - unfold edit_patient. rewrite (serve_missing patients) by done.
    apply effect_none.
Qed.

Lemma delete_patient_effect (patient_id : Z) (s : Store) :
  effect s (store (serve (delete_patient patient_id) s)).
Proof.
  destruct (patients s !! patient_id) as [p|] eqn:Hp.
  - rewrite delete_patient_found by done. apply effect_delete_patient.
  - unfold delete_patient. rewrite (serve_missing patients) by done.
    apply effect_none.
Qed.

Lemma add_visit_effect (request : Request) (patient_id : Z) (s : Store) :
  effect s (store (serve (add_visit request patient_id) s)).
Proof.
  destruct (patients s !! patient_id) as [p|] eqn:Hp.
  - rewrite add_visit_post by done. simpl. apply effect_add_visit; [done|].
    split_and!; simpl; auto using parsed_real_date, or_None_filled.
  - unfold add_visit. rewrite (serve_missing patients) by done.
    apply effect_none.
Qed.

Lemma add_medication_effect (request : Request) (patient_id : Z) (s : Store) :
  effect s (store (serve (add_medication request patient_id) s)).
Proof.
  destruct (patients s !! patient_id) as [p|] eqn:Hp.
  - destruct (decide (Py.strip (default [] (form_get request "name")) = []))
      as [Hb|Hb].
    + rewrite add_medication_blank by done. simpl. apply effect_none.
    + rewrite add_medication_post by done. simpl.
      apply effect_add_medication; [done|].
      split_and!; simpl; auto using strip_trimmed, or_None_filled.
  - unfold add_medication. rewrite (serve_missing patients) by done.
    apply effect_none.
Qed.

Lemma add_allergy_effect (request : Request) (patient_id : Z) (s : Store) :
  effect s (store (serve (add_allergy request patient_id) s)).
Proof.
  destruct (patients s !! patient_id) as [p|] eqn:Hp.
  - destruct (decide (Py.strip (default [] (form_get request "allergen")) = []))
      as [Hb|Hb].
    + rewrite add_allergy_blank by done. simpl. apply effect_none.
    + rewrite add_allergy_post by done. simpl.
      apply effect_add_allergy; [done|].
      split_and!; simpl; auto using strip_trimmed, or_None_filled.
  - unfold add_allergy. rewrite (serve_missing patients) by done.
    apply effect_none.
Qed.

Lemma delete_visit_effect (patient_id visit_id : Z) (s : Store) :
  effect s (store (serve (delete_visit patient_id visit_id) s)).
Proof.
  destruct (patients s !! patient_id) as [p|] eqn:Hp;
    [|unfold delete_visit; rewrite (serve_missing patients) by done;
      apply effect_none].
  destruct (visits s !! visit_id) as [v|] eqn:Hv;
    [|unfold delete_visit;
      rewrite (serve_found patients _ p), (serve_missing visits) by done;
      apply effect_none].
  destruct (decide (Visit.patient_id v = patient_id)) as [Ho|Ho].
  - rewrite (delete_visit_found _ _ _ v) by done. apply effect_delete_visit.
  - unfold delete_visit.
    rewrite (serve_found patients _ p), (serve_found visits _ v) by done.
    rewrite bool_decide_eq_true_2 by done. apply effect_none.
Qed.

Lemma delete_medication_effect (patient_id medication_id : Z) (s : Store) :
  effect s (store (serve (delete_medication patient_id medication_id) s)).
Proof.
  destruct (patients s !! patient_id) as [p|] eqn:Hp;
    [|unfold delete_medication; rewrite (serve_missing patients) by done;
      apply effect_none].
  destruct (medications s !! medication_id) as [m|] eqn:Hm;
    [|unfold delete_medication;
      rewrite (serve_found patients _ p), (serve_missing medications) by done;
      apply effect_none].
  destruct (decide (Medication.patient_id m = patient_id)) as [Ho|Ho].
  - rewrite (delete_medication_found _ _ _ m) by done.
    apply effect_delete_medication.
  - unfold delete_medication.
    rewrite (serve_found patients _ p), (serve_found medications _ m) by done.
    rewrite bool_decide_eq_true_2 by done. apply effect_none.
Qed.

Lemma delete_allergy_effect (patient_id allergy_id : Z) (s : Store) :
  effect s (store (serve (delete_allergy patient_id allergy_id) s)).
Proof.
  destruct (patients s !! patient_id) as [p|] eqn:Hp;
    [|unfold delete_allergy; rewrite (serve_missing patients) by done;
      apply effect_none].
  destruct (allergies s !! allergy_id) as [a|] eqn:Ha;
    [|unfold delete_allergy;
      rewrite (serve_found patients _ p), (serve_missing allergies) by done;
      apply effect_none].
  destruct (decide (Allergy.patient_id a = patient_id)) as [Ho|Ho].
  - rewrite (delete_allergy_found _ _ _ a) by done.
    apply effect_delete_allergy.
  - unfold delete_allergy.
    rewrite (serve_found patients _ p), (serve_found allergies _ a) by done.
    rewrite bool_decide_eq_true_2 by done. apply effect_none.
Qed.

(** Whatever the route, the method and the form, a request changes the
    store in one of the ways of [effect], or not at all. *)
Lemma dispatch_effect (r : Route) (request : Request) (s : Store) :
  effect s (store (serve (dispatch r request) s)).
Proof.
  unfold dispatch. destruct (methods r (method request)); [|apply effect_none].
  destruct r.
  - rewrite index_store. apply effect_none.
  - apply new_patient_effect.
  - apply edit_patient_effect.
  - rewrite patient_detail_store. apply effect_none.
  - apply delete_patient_effect.
  - apply add_visit_effect.
  - apply delete_visit_effect.
  - apply add_medication_effect.
  - apply delete_medication_effect.
  - apply add_allergy_effect.
  - apply delete_allergy_effect.
Qed.

Lemma effect_references (s s' : Store) :
  effect s s' → references_ok s → references_ok s'.
Proof.
  intros He (Hv & Hm & Ha). destruct He; simpl.
  - done.
  - split_and!; simpl; intros j x Hx.
    + apply Hv in Hx. rewrite lookup_insert. case_decide; eauto.
    + apply Hm in Hx. rewrite lookup_insert. case_decide; eauto.
    + apply Ha in Hx. rewrite lookup_insert. case_decide; eauto.
  - split_and!; simpl; intros j x [Hx Hne]%map_lookup_filter_Some; simpl in Hne.
    + rewrite lookup_delete_ne by done. eauto.
    + rewrite lookup_delete_ne by done. eauto.
    + rewrite lookup_delete_ne by done. eauto.
  - split_and!; simpl; [|done..]. intros j x.
    rewrite lookup_insert. case_decide; [by intros [= <-]|eauto].
  - split_and!; simpl; [|done..]. intros j x.
    rewrite lookup_delete. case_decide; [done|eauto].
  - split_and!; simpl; [done| |done]. intros j x.
    rewrite lookup_insert. case_decide; [by intros [= <-]|eauto].
  - split_and!; simpl; [done| |done]. intros j x.
    rewrite lookup_delete. case_decide; [done|eauto].
  - split_and!; simpl; [done..|]. intros j x.
    rewrite lookup_insert. case_decide; [by intros [= <-]|eauto].
  - split_and!; simpl; [done..|]. intros j x.
    rewrite lookup_delete. case_decide; [done|eauto].
Qed.

Lemma effect_rows (s s' : Store) : effect s s' → rows_ok s → rows_ok s'.
Proof.
  intros He (Hp & Hv & Hm & Ha). destruct He as [|id p Hok| | | | | | |]; simpl.
  - done.
  - split_and!; simpl; [|done..]. intros j x.
    rewrite lookup_insert. case_decide; [|eauto].
    intros [= <-]. apply Hok. subst. eauto.
  - split_and!; simpl.
    + intros j x. rewrite lookup_delete. case_decide; [done|eauto].
    + intros j x [Hx _]%map_lookup_filter_Some. eauto.
    + intros j x [Hx _]%map_lookup_filter_Some. eauto.
    + intros j x [Hx _]%map_lookup_filter_Some. eauto.
  - split_and!; simpl; [done| |done..]. intros j x.
    rewrite lookup_insert. case_decide; [by intros [= <-]|eauto].
  - split_and!; simpl; [done| |done..]. intros j x.
    rewrite lookup_delete. case_decide; [done|eauto].
  - split_and!; simpl; [done|done| |done]. intros j x.
    rewrite lookup_insert. case_decide; [by intros [= <-]|eauto].
  - split_and!; simpl; [done|done| |done]. intros j x.
    rewrite lookup_delete. case_decide; [done|eauto].
  - split_and!; simpl; [done..|]. intros j x.
    rewrite lookup_insert. case_decide; [by intros [= <-]|eauto].
  - split_and!; simpl; [done..|]. intros j x.
    rewrite lookup_delete. case_decide; [done|eauto].
Qed.

Ltac concrete_lookup H :=
  repeat (rewrite lookup_insert in H; case_decide; [injection H as <-|]);
  [.. | by rewrite lookup_empty in H].

Lemma clinic_references : references_ok clinic.
Proof.
  split_and!; intros id x H; unfold clinic in H; simpl in H;
    concrete_lookup H; by eexists.
Qed.

Lemma clinic_rows : rows_ok clinic.
Proof.
  split_and!; intros id x H; unfold clinic in H; simpl in H;
    concrete_lookup H; split_and!; try done;
    try (split; done); by intros d [= <-].
Qed.

(** ** What every request keeps *)

(** X8. Referential integrity is kept by every request: if every visit,
    medication and allergy belongs to a stored patient, the same holds
    after any route is served with any method and form. *)
Theorem requests_keep_references (r : Route) (request : Request) (s : Store) :
  references_ok s → references_ok (store (serve (dispatch r request) s)).
Proof. apply effect_references, dispatch_effect. Qed.

Lemma requests_keep_references_clinic :
  references_ok
    (store (serve (dispatch (route_delete_patient 7) (post [])) clinic)).
Proof.
  apply (requests_keep_references (route_delete_patient 7) (post []) clinic).
  exact clinic_references.
Defined.

(** X9. The shape of the rows is kept by every request: if in every row
    the required texts (patient names, medication name, allergen) are
    non-empty and trimmed, no optional text is the empty string, and
    every date is a calendar date, the same holds after any route is
    served with any method and form. *)
Theorem requests_keep_rows (r : Route) (request : Request) (s : Store) :
  rows_ok s → rows_ok (store (serve (dispatch r request) s)).
Proof. apply effect_rows, dispatch_effect. Qed.

Lemma requests_keep_rows_clinic :
  rows_ok
    (store (serve (dispatch (route_edit_patient 7)
                     (post [("first_name", lit " Augusta Ada ");
                            ("date_of_birth", lit "1815-12-32");
                            ("phone", [])]%string)) clinic)).
Proof.
  apply (requests_keep_rows (route_edit_patient 7)
           (post [("first_name", lit " Augusta Ada ");
                  ("date_of_birth", lit "1815-12-32");
                  ("phone", [])]%string) clinic).
  exact clinic_rows.
Defined.

(** X10. A request whose method is not POST never changes the store,
    whatever the route: the list, the forms and the detail view only
    read, and the other routes answer 405. *)
Theorem get_is_safe (r : Route) (request : Request) (s : Store) :
  method request ≠ POST → store (serve (dispatch r request) s) = s.
Proof.
  intros Hm. unfold dispatch.
  destruct (methods r (method request)) eqn:Ha; [|reflexivity].
  destruct r;
    [ apply index_store
    | unfold new_patient; by destruct (method request)
    |
    | apply patient_detail_store
    | destruct (method request); done .. ].
  unfold edit_patient.
  destruct (patients s !! patient_id) as [p|] eqn:Hp.
  - rewrite (serve_found patients _ p) by done.
    by destruct (method request).
  - by rewrite (serve_missing patients).
Qed.

Lemma get_is_safe_clinic :
  store (serve (dispatch (route_delete_patient 7) (mkRequest GET [])) clinic)
  = clinic ∧
  store (serve (dispatch (route_edit_patient 7)
                  (mkRequest GET [("first_name", lit "Eve")]%string)) clinic)
  = clinic.
Proof.
  split.
  - by apply (get_is_safe (route_delete_patient 7) (mkRequest GET []) clinic).
  - by apply (get_is_safe (route_edit_patient 7)
                (mkRequest GET [("first_name", lit "Eve")]%string) clinic).
Defined.

(** X11. An edit submission for a stored patient rewrites that one
    patient row and nothing else, flashes nothing and redirects to the
    detail view; a first or last name that is not empty once stripped
    replaces the stored one (stripped), a date that parses replaces the
    stored date of birth, and a non-empty sex or phone is stored as
    submitted. *)
Theorem edit_patient_updates (s : Store) (request : Request) (patient_id : Z)
    (p : Patient.t) :
  patients s !! patient_id = Some p →
  method request = POST →
  ∃ p',
    serve (edit_patient request patient_id) s
    = mkOutcome (Ok (redirect (url_patient_detail patient_id))) []
        (mkStore (<[patient_id := p']> (patients s)) (visits s)
           (medications s) (allergies s)) ∧
    (Py.strip (form_get_d request "first_name" []) ≠ [] →
     Patient.first_name p' = Py.strip (form_get_d request "first_name" [])) ∧
    (Py.strip (form_get_d request "last_name" []) ≠ [] →
     Patient.last_name p' = Py.strip (form_get_d request "last_name" [])) ∧
    (∀ d, Datetime.strptime_date (form_get_d request "date_of_birth" []) = Ok d →
          Patient.date_of_birth p' = Some d) ∧
    (∀ c t, form_get request "sex" = Some (c :: t) →
            Patient.sex p' = Some (c :: t)) ∧
    (∀ c t, form_get request "phone" = Some (c :: t) →
            Patient.phone p' = Some (c :: t)).
Proof.
  intros Hp Hm. eexists. split; [by apply edit_patient_post|]. simpl.
  split_and!; auto using or_None_given.
  - unfold Py.or_str. by destruct (Py.strip _).
  - unfold Py.or_str. by destruct (Py.strip _).
  - by intros d ->.
Qed.

Lemma edit_patient_updates_ada :
  serve (edit_patient
           (post [("first_name", lit " Augusta "); ("last_name", lit "King");
                  ("date_of_birth", lit "1815-12-11"); ("sex", lit "F");
                  ("phone", lit "555-0199")]%string) 7) clinic
  = mkOutcome (Ok (redirect (url_patient_detail 7))) []
      (mkStore
         (<[7 := Patient.mk (lit "Augusta") (lit "King") (Some (Date 1815 12 11))
                   (Some (lit "F")) (Some (lit "555-0199"))]> (patients clinic))
         (visits clinic) (medications clinic) (allergies clinic)).
Proof.
  destruct (edit_patient_updates clinic
              (post [("first_name", lit " Augusta "); ("last_name", lit "King");
                     ("date_of_birth", lit "1815-12-11"); ("sex", lit "F");
                     ("phone", lit "555-0199")]%string) 7 ada eq_refl eq_refl)
    as (p' & Hs & Hf & Hl & Hd & Hx & Hph).
  rewrite Hs. do 3 f_equal. destruct p' as [f l d x ph]. simpl in *. f_equal.
  - apply Hf. vm_compute. congruence.
  - apply Hl. vm_compute. congruence.
  - apply Hd. reflexivity.
  - by eapply Hx.
  - by eapply Hph.
Defined.

(** ** Adding and deleting again *)

Lemma store_eta (s : Store) :
  mkStore (patients s) (visits s) (medications s) (allergies s) = s.
Proof. by destruct s. Qed.

(** X12. Adding a child and deleting it again restores the store: the
    visit (medication, allergy) a successful add request stored for a
    patient is removed by the delete request for its id under the same
    patient, and the store is then the one before the add. *)
Theorem add_then_delete_child (s : Store) (request : Request) (patient_id : Z) :
  is_Some (patients s !! patient_id) →
  (∃ id, visits s !! id = None ∧
     is_Some (visits (store (serve (add_visit request patient_id) s)) !! id) ∧
     serve (delete_visit patient_id id)
       (store (serve (add_visit request patient_id) s))
     = mkOutcome (Ok (redirect (url_patient_detail patient_id))) [] s) ∧
  (Py.strip (default [] (form_get request "name")) ≠ [] →
   ∃ id, medications s !! id = None ∧
     is_Some (medications (store (serve (add_medication request patient_id) s))
                !! id) ∧
     serve (delete_medication patient_id id)
       (store (serve (add_medication request patient_id) s))
     = mkOutcome (Ok (redirect (url_patient_detail patient_id))) [] s) ∧
  (Py.strip (default [] (form_get request "allergen")) ≠ [] →
   ∃ id, allergies s !! id = None ∧
     is_Some (allergies (store (serve (add_allergy request patient_id) s))
                !! id) ∧
     serve (delete_allergy patient_id id)
       (store (serve (add_allergy request patient_id) s))
     = mkOutcome (Ok (redirect (url_patient_detail patient_id))) [] s).
Proof.
  intros Hp. split_and!.
  - exists (next_id (visits s)). split; [apply next_id_fresh|].
    rewrite add_visit_post by done. simpl.
    split; [by rewrite lookup_insert_eq|].
    erewrite delete_visit_found;
      [|done|simpl; apply lookup_insert_eq|reflexivity].
    simpl. rewrite delete_insert_id by apply next_id_fresh.
    by rewrite store_eta.
  - intros Hne. exists (next_id (medications s)).
    split; [apply next_id_fresh|].
    rewrite add_medication_post by done. simpl.
    split; [by rewrite lookup_insert_eq|].
    erewrite delete_medication_found;
      [|done|simpl; apply lookup_insert_eq|reflexivity].
    simpl. rewrite delete_insert_id by apply next_id_fresh.
    by rewrite store_eta.
  - intros Hne. exists (next_id (allergies s)).
    split; [apply next_id_fresh|].
    rewrite add_allergy_post by done. simpl.
    split; [by rewrite lookup_insert_eq|].
    erewrite delete_allergy_found;
      [|done|simpl; apply lookup_insert_eq|reflexivity].
    simpl. rewrite delete_insert_id by apply next_id_fresh.
    by rewrite store_eta.
Qed.

Lemma add_then_delete_child_clinic :
  ∃ id, visits clinic !! id = None ∧
    serve (delete_visit 7 id)
      (store (serve (add_visit (post [("reason", lit "flu")]%string) 7) clinic))
    = mkOutcome (Ok (redirect (url_patient_detail 7))) [] clinic.
Proof.
  assert (Hp : is_Some (patients clinic !! 7)) by (by eexists).
  destruct (add_then_delete_child clinic (post [("reason", lit "flu")]%string)
              7 Hp) as [(id & Hfresh & _ & Hs) _].
  exists id. by split.
Defined.

(** X13. Creating a patient and deleting it again restores the store,
    provided every child in the store belongs to a stored patient: the
    new patient gets an unused id, so the cascade of the delete finds no
    child to remove. *)
Theorem create_then_delete_patient (s : Store) (request : Request) :
  method request = POST →
  Py.strip (form_get_d request "first_name" []) ≠ [] →
  Py.strip (form_get_d request "last_name" []) ≠ [] →
  references_ok s →
  ∃ id,
    response (serve (new_patient request) s)
    = Ok (redirect (url_patient_detail id)) ∧
    patients s !! id = None ∧
    serve (delete_patient id) (store (serve (new_patient request) s))
    = mkOutcome (Ok (redirect url_index)) [] s.
Proof.
  intros Hm Hf Hl (Hv & Hmed & Ha). exists (next_id (patients s)).
  pose proof (next_id_fresh (patients s)) as Hfresh.
  rewrite new_patient_post by done. simpl. split; [done|]. split; [done|].
  rewrite delete_patient_found by (simpl; by rewrite lookup_insert_eq). simpl.
  rewrite delete_insert_id by done.
  rewrite !map_filter_id.
  - by rewrite store_eta.
  - intros j a Hj E. simpl in E. apply Ha in Hj. rewrite E, Hfresh in Hj.
    by destruct Hj.
  - intros j m Hj E. simpl in E. apply Hmed in Hj. rewrite E, Hfresh in Hj.
    by destruct Hj.
  - intros j v Hj E. simpl in E. apply Hv in Hj. rewrite E, Hfresh in Hj.
    by destruct Hj.
Qed.

Lemma create_then_delete_patient_clinic :
  ∃ id,
    patients clinic !! id = None ∧
    serve (delete_patient id)
      (store (serve (new_patient
                       (post [("first_name", lit "Grace");
                              ("last_name", lit "Hopper")]%string)) clinic))
    = mkOutcome (Ok (redirect url_index)) [] clinic.
Proof.
  destruct (create_then_delete_patient clinic
              (post [("first_name", lit "Grace");
                     ("last_name", lit "Hopper")]%string))
    as (id & _ & Hfresh & Hs);
    [reflexivity | vm_compute; congruence | vm_compute; congruence
    | exact clinic_references |].
  exists id. by split.
Defined.

(** ** The texts [parse_date] accepts *)

Lemma re_match_sound (r : Datetime.regex) (s m rest : pystr) :
  (m, rest) ∈ Datetime.re_match r s →
  s = m ++ rest ∧ (min_len r ≤ length m ≤ max_len r)%nat.
Proof.
  revert s m rest. induction r as [c|lo hi| |r1 IH1 r2 IH2|r1 IH1 r2 IH2];
    intros s m rest; simpl.
  - destruct s as [|x s]; [by intros ?%elem_of_nil|].
    destruct (x =? c)%N; [|by intros ?%elem_of_nil].
    intros [= -> ->]%list_elem_of_singleton. simpl. split; [done|lia].
  - destruct s as [|x s]; [by intros ?%elem_of_nil|].
    destruct (_ && _); [|by intros ?%elem_of_nil].
    intros [= -> ->]%list_elem_of_singleton. simpl. split; [done|lia].
  - destruct s as [|x s]; [by intros ?%elem_of_nil|].
    destruct (Py.decimal x); [|by intros ?%elem_of_nil].
    intros [= -> ->]%list_elem_of_singleton. simpl. split; [done|lia].
  - intros ([m1 s1] & ([m2 s2] & H & H2)%list_elem_of_bind & H1)%list_elem_of_bind.
    apply list_elem_of_singleton in H. simpl in *. injection H as -> ->.
    apply IH1 in H1 as [-> ?]. apply IH2 in H2 as [-> ?].
    rewrite length_app, (assoc_L (++)). split; [done|lia].
  - intros [H|H]%elem_of_app.
    + apply IH1 in H as [-> ?]. split; [done|lia].
    + apply IH2 in H as [-> ?]. split; [done|lia].
Qed.

Lemma re_match_Chr (c : N) (s m rest : pystr) :
  (m, rest) ∈ Datetime.re_match (Datetime.Chr c) s → m = [c] ∧ s = c :: rest.
Proof.
  simpl. destruct s as [|x s]; [by intros ?%elem_of_nil|].
  destruct (x =? c)%N eqn:E; [|by intros ?%elem_of_nil].
  apply N.eqb_eq in E as ->. by intros [= -> ->]%list_elem_of_singleton.
Qed.

(** A decimal digit is not whitespace. *)
Lemma decimal_not_space (c : N) : digit c → Py.isspace c = false.
Proof.
  intros [d H]. unfold Py.decimal in H.
  destruct (find _ Py.Nd_zeros) as [z|] eqn:E; [|done].
  apply find_some in E as [Hin Hz].
  apply andb_true_iff in Hz as [H1%N.leb_le H2%N.ltb_lt].
  assert (Hall : forallb (λ z, forallb (λ i, negb (Py.isspace (z + i)))
                                [0; 1; 2; 3; 4; 5; 6; 7; 8; 9]%N)
                   Py.Nd_zeros = true) by (vm_compute; reflexivity).
  rewrite forallb_forall in Hall. specialize (Hall z Hin).
  rewrite forallb_forall in Hall. specialize (Hall (c - z)%N).
  replace (z + (c - z))%N with c in Hall by lia.
  apply negb_true_iff, Hall.
  assert (c - z = 0 ∨ c - z = 1 ∨ c - z = 2 ∨ c - z = 3 ∨ c - z = 4
          ∨ c - z = 5 ∨ c - z = 6 ∨ c - z = 7 ∨ c - z = 8 ∨ c - z = 9)%N
    as Hc by lia.
  simpl. intuition auto.
Qed.

Lemma ascii_digit (c : N) : (48 ≤ c ≤ 57)%N → digit c.
Proof.
  intros Hc.
  assert (c = 48 ∨ c = 49 ∨ c = 50 ∨ c = 51 ∨ c = 52 ∨ c = 53 ∨ c = 54
          ∨ c = 55 ∨ c = 56 ∨ c = 57)%N as H by lia.
  repeat destruct H as [H|H]; subst c; by eexists.
Qed.

Lemma re_match_Range_inv (lo hi : N) (s m rest : pystr) :
  (m, rest) ∈ Datetime.re_match (Datetime.Range lo hi) s →
  ∃ x, m = [x] ∧ s = x :: rest ∧ (lo ≤ x ≤ hi)%N.
Proof.
  simpl. destruct s as [|x s]; [by intros ?%elem_of_nil|].
  destruct ((lo <=? x)%N && (x <=? hi)%N) eqn:E; [|by intros ?%elem_of_nil].
  apply andb_true_iff in E as [?%N.leb_le ?%N.leb_le].
  intros [= -> ->]%list_elem_of_singleton. eauto.
Qed.

Lemma re_match_Digit_inv (s m rest : pystr) :
  (m, rest) ∈ Datetime.re_match Datetime.Digit s →
  ∃ x, m = [x] ∧ s = x :: rest ∧ digit x.
Proof.
  simpl. destruct s as [|x s]; [by intros ?%elem_of_nil|].
  destruct (Py.decimal x) eqn:E; [|by intros ?%elem_of_nil].
  intros [= -> ->]%list_elem_of_singleton. exists x. unfold digit. eauto.
Qed.

Lemma re_match_Cat_inv (r1 r2 : Datetime.regex) (s m rest : pystr) :
  (m, rest) ∈ Datetime.re_match (Datetime.Cat r1 r2) s →
  ∃ m1 mid m2, m = m1 ++ m2 ∧ (m1, mid) ∈ Datetime.re_match r1 s
               ∧ (m2, rest) ∈ Datetime.re_match r2 mid.
Proof.
  simpl.
  intros ([m1 s1] & ([m2 s2] & H & H2)%list_elem_of_bind & H1)%list_elem_of_bind.
  apply list_elem_of_singleton in H. simpl in H. injection H as -> ->.
  eauto 6.
Qed.

Lemma re_match_Alt_inv (r1 r2 : Datetime.regex) (s : pystr) x :
  x ∈ Datetime.re_match (Datetime.Alt r1 r2) s →
  x ∈ Datetime.re_match r1 s ∨ x ∈ Datetime.re_match r2 s.
Proof. simpl. apply elem_of_app. Qed.

(** What the three groups of the pattern can hold. *)
Lemma re_Y_shape (s m rest : pystr) :
  (m, rest) ∈ Datetime.re_match Datetime.re_Y s →
  length m = 4%nat ∧ Forall digit m.
Proof.
  unfold Datetime.re_Y. intros M.
  apply re_match_Cat_inv in M as (m1 & s1 & n1 & -> & M1 & M).
  apply re_match_Digit_inv in M1 as (x1 & -> & _ & D1).
  apply re_match_Cat_inv in M as (m2 & s2 & n2 & -> & M2 & M).
  apply re_match_Digit_inv in M2 as (x2 & -> & _ & D2).
  apply re_match_Cat_inv in M as (m3 & s3 & n3 & -> & M3 & M4).
  apply re_match_Digit_inv in M3 as (x3 & -> & _ & D3).
  apply re_match_Digit_inv in M4 as (x4 & -> & _ & D4).
  split; [done|]. by repeat constructor.
Qed.

Ltac chr_then_range M :=
  let m1 := fresh "m" in let s1 := fresh "s" in let m2 := fresh "m" in
  let M1 := fresh "M" in let M2 := fresh "M" in let x := fresh "x" in
  let R := fresh "R" in
  apply re_match_Cat_inv in M as (m1 & s1 & m2 & -> & M1 & M2);
  apply re_match_Chr in M1 as [-> _];
  apply re_match_Range_inv in M2 as (x & -> & _ & R).

Lemma re_m_shape (s m rest : pystr) :
  (m, rest) ∈ Datetime.re_match Datetime.re_m s →
  (1 ≤ length m ≤ 2)%nat ∧ Forall digit m.
Proof.
  unfold Datetime.re_m, Datetime.c0, Datetime.c1, Datetime.c2, Datetime.c9.
  intros M. apply re_match_Alt_inv in M as [M|M];
    [|apply re_match_Alt_inv in M as [M|M]].
  - chr_then_range M.
    split; [simpl; lia|]. repeat constructor; apply ascii_digit; lia.
  - chr_then_range M.
    split; [simpl; lia|]. repeat constructor; apply ascii_digit; lia.
  - apply re_match_Range_inv in M as (x & -> & _ & R).
    split; [simpl; lia|]. repeat constructor; apply ascii_digit; lia.
Qed.

Lemma re_d_shape (s m rest : pystr) :
  (m, rest) ∈ Datetime.re_match Datetime.re_d s →
  ((1 ≤ length m ≤ 2)%nat ∧ Forall digit m)
  ∨ ∃ c, m = [Datetime.space; c] ∧ digit c.
Proof.
  unfold Datetime.re_d, Datetime.c0, Datetime.c1, Datetime.c2, Datetime.c3,
    Datetime.c9.
  intros M. apply re_match_Alt_inv in M as [M|M];
    [|apply re_match_Alt_inv in M as [M|M];
      [|apply re_match_Alt_inv in M as [M|M];
        [|apply re_match_Alt_inv in M as [M|M]]]].
  - chr_then_range M. left.
    split; [simpl; lia|]. repeat constructor; apply ascii_digit; lia.
  - apply re_match_Cat_inv in M as (m1 & s1 & m2 & -> & M1 & M2).
    apply re_match_Range_inv in M1 as (x & -> & _ & R).
    apply re_match_Digit_inv in M2 as (y & -> & _ & D).
    left. split; [simpl; lia|].
    repeat constructor; [apply ascii_digit; lia|done].
  - chr_then_range M. left.
    split; [simpl; lia|]. repeat constructor; apply ascii_digit; lia.
  - apply re_match_Range_inv in M as (x & -> & _ & R).
    left. split; [simpl; lia|]. repeat constructor; apply ascii_digit; lia.
  - chr_then_range M. right. eexists. split; [done|]. apply ascii_digit; lia.
Qed.

(** A match of the pattern splits the text into the year, a dash, the
    month, a dash, the day, and what is left over. *)
Lemma format_match_shape (s : pystr) (f : Datetime.found) :
  Datetime.format_match s = Some f →
  s = Datetime.gY f ++ [Datetime.dash] ++ Datetime.gm f ++ [Datetime.dash]
      ++ Datetime.gd f ++ Datetime.rest f ∧
  (length (Datetime.gY f) = 4%nat ∧ Forall digit (Datetime.gY f)) ∧
  ((1 ≤ length (Datetime.gm f) ≤ 2)%nat ∧ Forall digit (Datetime.gm f)) ∧
  (((1 ≤ length (Datetime.gd f) ≤ 2)%nat ∧ Forall digit (Datetime.gd f))
   ∨ ∃ c, Datetime.gd f = [Datetime.space; c] ∧ digit c).
Proof.
  unfold Datetime.format_match. intros H%head_Some_elem_of.
  apply list_elem_of_bind in H as ([mY sY] & H & HY).
  apply list_elem_of_bind in H as ([m1 s1] & H & H1).
  apply list_elem_of_bind in H as ([mm sm] & H & Hm).
  apply list_elem_of_bind in H as ([m2 s2] & H & H2).
  apply list_elem_of_bind in H as ([md sd] & H & Hd).
  apply list_elem_of_singleton in H as ->. cbn [fst snd] in *.
  pose proof (re_Y_shape _ _ _ HY). pose proof (re_m_shape _ _ _ Hm).
  pose proof (re_d_shape _ _ _ Hd).
  apply re_match_sound in HY as [-> _], Hm as [-> _], Hd as [-> _].
  apply re_match_Chr in H1 as [-> ->], H2 as [-> ->].
  cbn [Datetime.gY Datetime.gm Datetime.gd Datetime.rest]. done.
Qed.

(** On a text of digits [int] is the value of the digits. *)
Lemma int_digits (g : pystr) (n : Z) :
  Forall digit g → Py.int g = Ok n → Py.digits_value 0 g = Some n.
Proof.
  intros Hg. destruct g as [|c g]; [done|].
  assert (Py.strip (c :: g) = c :: g) as E.
  { apply trimmed_ends. exists c. apply Forall_cons in Hg as [Hc Hg'].
    split; [done|]. split; [by apply decimal_not_space|].
    destruct (last (c :: g)) as [c'|] eqn:El.
    - exists c'. split; [done|]. apply decimal_not_space.
      apply last_Some_elem_of in El.
      rewrite Forall_forall in Hg'. apply elem_of_cons in El as [->|El]; auto.
    - by apply last_None in El. }
  unfold Py.int. rewrite E. by destruct (Py.digits_value 0 (c :: g)); intros [= ->].
Qed.

Lemma int_space_digit (c : N) (n : Z) :
  digit c → Py.int [Datetime.space; c] = Ok n → Py.digits_value 0 [c] = Some n.
Proof.
  intros Hc%decimal_not_space.
  assert (Py.strip [Datetime.space; c] = [c]) as E.
  { unfold Py.strip.
    assert (Py.lstrip [Datetime.space; c] = [c]) as ->
      by (cbn [Py.lstrip]; change (Py.isspace Datetime.space) with true;
          cbn iota; by rewrite Hc).
    by rewrite rstrip_head. }
  unfold Py.int. rewrite E. by destruct (Py.digits_value 0 [c]); intros [= ->].
Qed.

(** The texts [strptime] accepts for [%Y-%m-%d]. *)
Lemma strptime_shape (value : pystr) (d : date) :
  Datetime.strptime_date value = Ok d →
  ∃ gy gm gd,
    value = gy ++ [Datetime.dash] ++ gm ++ [Datetime.dash] ++ gd ∧
    length gy = 4%nat ∧ Py.digits_value 0 gy = Some (year d) ∧
    (1 ≤ length gm ≤ 2)%nat ∧ Py.digits_value 0 gm = Some (month d) ∧
    ((1 ≤ length gd ≤ 2)%nat ∧ Py.digits_value 0 gd = Some (day d)
     ∨ ∃ c, gd = [Datetime.space; c] ∧ Py.digits_value 0 [c] = Some (day d)) ∧
    (8 ≤ length value ≤ 10)%nat ∧
    (∃ c t, value = c :: t ∧ digit c ∧ Py.isspace c = false) ∧
    (∃ t c, value = t ++ [c] ∧ digit c ∧ Py.isspace c = false).
Proof.
  intros E. unfold Datetime.strptime_date in E.
  destruct (Datetime.format_match value) as [f|] eqn:Ef; [|done].
  destruct (format_match_shape _ _ Ef) as (Hs & [HY HYd] & [Hm Hmd] & Hd).
  destruct (Datetime.rest f) eqn:Er; [|done]. simpl in E.
  unfold Datetime.bind_result in E.
  destruct (Py.int (Datetime.gY f)) as [y|] eqn:EY; [|done].
  destruct (Py.int (Datetime.gm f)) as [m|] eqn:Em; [|done].
  destruct (Py.int (Datetime.gd f)) as [dd|] eqn:Ed; [|done].
  apply mk_date_fields in E as ->. simpl.
  exists (Datetime.gY f), (Datetime.gm f), (Datetime.gd f).
  rewrite app_nil_r in Hs.
  assert (Hlen : (2 ≤ length (Datetime.gd f) + 1 ≤ 3)%nat).
  { destruct Hd as [[? _]|(c & -> & _)]; simpl; lia. }
  assert (Hlast : ∃ t c, Datetime.gd f = t ++ [c] ∧ digit c).
  { destruct Hd as [[Hl Hdd]|(c & -> & Hc)].
    - destruct (last (Datetime.gd f)) as [c|] eqn:El.
      + pose proof (last_Some_elem_of _ _ El) as Hin.
        apply last_Some in El as [t ->]. exists t, c. split; [done|].
        rewrite Forall_forall in Hdd. auto.
      + apply last_None in El. rewrite El in Hl. simpl in Hl. lia.
    - exists [Datetime.space], c. done. }
  split; [exact Hs|]. split; [exact HY|].
  split; [by apply int_digits|]. split; [exact Hm|].
  split; [by apply int_digits|].
  split.
  { destruct Hd as [[Hl Hdd]|(c & Hc & Hcd)].
    - left. split; [done|]. by apply int_digits.
    - right. exists c. split; [done|]. rewrite Hc in Ed.
      by apply int_space_digit. }
  split; [rewrite Hs, !length_app; simpl; lia|].
  split.
  - destruct (Datetime.gY f) as [|c t] eqn:Eg; [done|].
    apply Forall_cons in HYd as [Hc _].
    exists c, (t ++ [Datetime.dash] ++ Datetime.gm f ++ [Datetime.dash]
               ++ Datetime.gd f).
    split; [by rewrite Hs|]. split; [done|by apply decimal_not_space].
  - destruct Hlast as (t & c & Et & Hc).
    exists (Datetime.gY f ++ [Datetime.dash] ++ Datetime.gm f
            ++ [Datetime.dash] ++ t), c.
    split; [|split; [done|by apply decimal_not_space]].
    rewrite Hs, Et. by rewrite <-!(assoc_L (++)).
Qed.

(** X14. Every text that [parse_date] turns into a date is, with nothing
    before or after it: four decimal digits for the year, a dash, one or
    two digits for the month, a dash, and the day as one or two digits
    or as a space and one digit; the date returned has the values of
    these digits.  So the text is 8 to 10 characters long, and its first
    and last characters are decimal digits, not whitespace. *)
Theorem parse_date_shape (value : pystr) (d : date) :
  parse_date value = Ok (Some d) →
  ∃ gy gm gd,
    value = gy ++ [Datetime.dash] ++ gm ++ [Datetime.dash] ++ gd ∧
    length gy = 4%nat ∧ Py.digits_value 0 gy = Some (year d) ∧
    (1 ≤ length gm ≤ 2)%nat ∧ Py.digits_value 0 gm = Some (month d) ∧
    ((1 ≤ length gd ≤ 2)%nat ∧ Py.digits_value 0 gd = Some (day d)
     ∨ ∃ c, gd = [Datetime.space; c] ∧ Py.digits_value 0 [c] = Some (day d)) ∧
    (8 ≤ length value ≤ 10)%nat ∧
    (∃ c t, value = c :: t ∧ digit c ∧ Py.isspace c = false) ∧
    (∃ t c, value = t ++ [c] ∧ digit c ∧ Py.isspace c = false).
Proof.
  rewrite parse_date_eq.
  destruct (Datetime.strptime_date value) as [d'|] eqn:E; [|done].
  intros [= ->]. by apply strptime_shape.
Qed.

Lemma parse_date_shape_space_day :
  ∃ gy gm gd,
    lit "2024-1- 5" = gy ++ [Datetime.dash] ++ gm ++ [Datetime.dash] ++ gd ∧
    Py.digits_value 0 gy = Some 2024 ∧ Py.digits_value 0 gm = Some 1 ∧
    (8 ≤ length (lit "2024-1- 5") ≤ 10)%nat.
Proof.
  destruct (parse_date_shape (lit "2024-1- 5") (Date 2024 1 5) eq_refl)
    as (gy & gm & gd & Hs & _ & Hy & _ & Hm & _ & Hl & _).
  exists gy, gm, gd. done.
Defined.

(** X17. [parse_date] does not trim: a text that begins or ends with a
    whitespace character gives [None], also when the rest is a date. *)
Theorem parse_date_no_trim (value : pystr) (c : N) :
  Py.isspace c = true →
  head value = Some c ∨ last value = Some c →
  parse_date value = Ok None.
Proof.
  intros Hc Hends. rewrite parse_date_eq.
  destruct (Datetime.strptime_date value) as [d|] eqn:E; [|done].
  destruct (strptime_shape _ _ E)
    as (_ & _ & _ & _ & _ & _ & _ & _ & _ & _ & (c1 & t1 & E1 & _ & H1)
        & (t2 & c2 & E2 & _ & H2)).
  destruct Hends as [Hh|Hl].
  - rewrite E1 in Hh. simpl in Hh. congruence.
  - rewrite E2, last_snoc in Hl. congruence.
Qed.

Lemma parse_date_no_trim_examples :
  parse_date (lit "2024-01-10 ") = Ok None ∧
  parse_date (lit " 2024-01-10") = Ok None ∧
  parse_date (lit "2024-01-10" ++ [10%N]) = Ok None.
Proof.
  split_and!.
  - apply (parse_date_no_trim _ 32%N); [reflexivity|by right].
  - apply (parse_date_no_trim _ 32%N); [reflexivity|by left].
  - apply (parse_date_no_trim _ 10%N); [reflexivity|by right].
Defined.

Lemma int_unpadded (n : Z) : 1 ≤ n ≤ 31 → Py.int (unpadded n) = Ok n.
Proof.
  intros Hn. assert (H : n ∈ seqZ 1 31) by (apply elem_of_seqZ; lia).
  vm_compute in H. enum_cases H; reflexivity.
Qed.

Lemma format_match_month_day_unpadded (g : pystr) (m d : Z) :
  1 ≤ m ≤ 12 → 1 ≤ d ≤ 31 →
  head (s1 ← Datetime.re_match (Datetime.Chr Datetime.dash)
               (Datetime.dash :: unpadded m ++ Datetime.dash :: unpadded d);
        mm ← Datetime.re_match Datetime.re_m s1.2;
        s2 ← Datetime.re_match (Datetime.Chr Datetime.dash) mm.2;
        md ← Datetime.re_match Datetime.re_d s2.2;
        [Datetime.Found g mm.1 md.1 md.2])
  = Some (Datetime.Found g (unpadded m) (unpadded d) []).
Proof.
  intros Hm Hd.
  assert (H1 : m ∈ seqZ 1 12) by (apply elem_of_seqZ; lia).
  assert (H2 : d ∈ seqZ 1 31) by (apply elem_of_seqZ; lia).
  vm_compute in H1, H2. enum_cases H1; enum_cases H2; reflexivity.
Qed.

(** X15. Zero padding is optional: a calendar date written with a
    four-digit year and with the month and the day without a leading
    zero (as in 2024-1-5) parses to that date. *)
Theorem parse_date_unpadded (d : date) :
  Datetime.mk_date (year d) (month d) (day d) = Ok d →
  parse_date (isoformat_unpadded d) = Ok (Some d).
Proof.
  intros Hd. destruct (mk_date_bounds _ _ _ _ Hd) as (Hy & Hm & Hdd).
  rewrite parse_date_eq.
  unfold Datetime.strptime_date, isoformat_unpadded.
  change ([digit_char (year d / 1000); digit_char (year d / 100);
           digit_char (year d / 10); digit_char (year d)]
          ++ [Datetime.dash] ++ unpadded (month d)
          ++ [Datetime.dash] ++ unpadded (day d))
    with (digit_char (year d / 1000) :: digit_char (year d / 100)
          :: digit_char (year d / 10) :: digit_char (year d)
          :: Datetime.dash :: unpadded (month d)
          ++ Datetime.dash :: unpadded (day d)).
  rewrite format_match_year by (rewrite decimal_digit_char; eauto).
  rewrite format_match_month_day_unpadded by done. simpl.
  rewrite int_year by lia. simpl.
  rewrite !int_unpadded by lia. simpl. by rewrite Hd.
Qed.

Lemma parse_date_unpadded_example :
  parse_date (lit "2024-1-5") = Ok (Some (Date 2024 1 5)).
Proof.
  apply (parse_date_unpadded (Date 2024 1 5)). reflexivity.
Defined.

(** ** Flashed messages *)

Lemma new_patient_blank (request : Request) (s : Store) :
  method request = POST →
  Py.strip (form_get_d request "first_name" []) = []
  ∨ Py.strip (form_get_d request "last_name" []) = [] →
  serve (new_patient request) s
  = rejected url_new_patient "First and last name are required" s.
Proof.
  intros Hm Hb. unfold new_patient. rewrite Hm.
  destruct Hb as [-> | ->]; simpl; rewrite ?orb_true_r; reflexivity.
Qed.

Lemma not_found_quiet (s : Store) : quiet_or_rejected s (not_found s).
Proof. by left. Qed.

Lemma new_patient_flash (request : Request) (s : Store) :
  quiet_or_rejected s (serve (new_patient request) s).
Proof.
  destruct (method request) eqn:Hm;
    try (unfold new_patient; rewrite Hm; by left).
  destruct (decide (Py.strip (form_get_d request "first_name" []) = []))
    as [Hf|Hf].
  { rewrite new_patient_blank by auto. right. eexists _, _.
    split; [done|]. set_solver. }
  destruct (decide (Py.strip (form_get_d request "last_name" []) = []))
    as [Hl|Hl].
  { rewrite new_patient_blank by auto. right. eexists _, _.
    split; [done|]. set_solver. }
  rewrite new_patient_post by done. by left.
Qed.

Lemma edit_patient_flash (request : Request) (patient_id : Z) (s : Store) :
  quiet_or_rejected s (serve (edit_patient request patient_id) s).
Proof.
  destruct (patients s !! patient_id) as [p|] eqn:Hp.
  - destruct (method request) eqn:Hm;
      try (unfold edit_patient; rewrite (serve_found patients _ p) by done;
           rewrite Hm; by left).
    rewrite (edit_patient_post _ _ _ p) by done. by left.
  - unfold edit_patient. rewrite (serve_missing patients) by done. by left.
Qed.

Lemma patient_detail_flash (patient_id : Z) (s : Store) :
  quiet_or_rejected s (serve (patient_detail patient_id) s).
Proof.
  left. unfold patient_detail.
  destruct (patients s !! patient_id) as [p|] eqn:Hp.
  - by rewrite (serve_found patients _ p).
  - by rewrite (serve_missing patients).
Qed.

Lemma delete_patient_flash (patient_id : Z) (s : Store) :
  quiet_or_rejected s (serve (delete_patient patient_id) s).
Proof.
  left. destruct (patients s !! patient_id) as [p|] eqn:Hp.
  - by rewrite delete_patient_found.
  - unfold delete_patient. by rewrite (serve_missing patients).
Qed.

Lemma add_visit_flash (request : Request) (patient_id : Z) (s : Store) :
  quiet_or_rejected s (serve (add_visit request patient_id) s).
Proof.
  left. destruct (patients s !! patient_id) as [p|] eqn:Hp.
  - by rewrite add_visit_post.
  - unfold add_visit. by rewrite (serve_missing patients).
Qed.

Lemma add_medication_flash (request : Request) (patient_id : Z) (s : Store) :
  quiet_or_rejected s (serve (add_medication request patient_id) s).
Proof.
  destruct (patients s !! patient_id) as [p|] eqn:Hp.
  - destruct (decide (Py.strip (default [] (form_get request "name")) = []))
      as [Hb|Hb].
    + rewrite add_medication_blank by done. right. eexists _, _.
      split; [done|]. set_solver.
    + rewrite add_medication_post by done. by left.
  - unfold add_medication. rewrite (serve_missing patients) by done. by left.
Qed.

Lemma add_allergy_flash (request : Request) (patient_id : Z) (s : Store) :
  quiet_or_rejected s (serve (add_allergy request patient_id) s).
Proof.
  destruct (patients s !! patient_id) as [p|] eqn:Hp.
  - destruct (decide (Py.strip (default [] (form_get request "allergen")) = []))
      as [Hb|Hb].
    + rewrite add_allergy_blank by done. right. eexists _, _.
      split; [done|]. set_solver.
    + rewrite add_allergy_post by done. by left.
  - unfold add_allergy. rewrite (serve_missing patients) by done. by left.
Qed.

Lemma delete_visit_flash (patient_id visit_id : Z) (s : Store) :
  quiet_or_rejected s (serve (delete_visit patient_id visit_id) s).
Proof.
  left.
  destruct (patients s !! patient_id) as [p|] eqn:Hp;
    [|unfold delete_visit; by rewrite (serve_missing patients)].
  destruct (visits s !! visit_id) as [v|] eqn:Hv;
    [|unfold delete_visit;
      by rewrite (serve_found patients _ p), (serve_missing visits)].
  destruct (decide (Visit.patient_id v = patient_id)) as [Ho|Ho].
  - by rewrite (delete_visit_found _ _ _ v).
  - unfold delete_visit.
    rewrite (serve_found patients _ p), (serve_found visits _ v) by done.
    by rewrite bool_decide_eq_true_2.
Qed.

Lemma delete_medication_flash (patient_id medication_id : Z) (s : Store) :
  quiet_or_rejected s (serve (delete_medication patient_id medication_id) s).
Proof.
  left.
  destruct (patients s !! patient_id) as [p|] eqn:Hp;
    [|unfold delete_medication; by rewrite (serve_missing patients)].
  destruct (medications s !! medication_id) as [m|] eqn:Hm;
    [|unfold delete_medication;
      by rewrite (serve_found patients _ p), (serve_missing medications)].
  destruct (decide (Medication.patient_id m = patient_id)) as [Ho|Ho].
  - by rewrite (delete_medication_found _ _ _ m).
  - unfold delete_medication.
    rewrite (serve_found patients _ p), (serve_found medications _ m) by done.
    by rewrite bool_decide_eq_true_2.
Qed.

Lemma delete_allergy_flash (patient_id allergy_id : Z) (s : Store) :
  quiet_or_rejected s (serve (delete_allergy patient_id allergy_id) s).
Proof.
  left.
  destruct (patients s !! patient_id) as [p|] eqn:Hp;
    [|unfold delete_allergy; by rewrite (serve_missing patients)].
  destruct (allergies s !! allergy_id) as [a|] eqn:Ha;
    [|unfold delete_allergy;
      by rewrite (serve_found patients _ p), (serve_missing allergies)].
  destruct (decide (Allergy.patient_id a = patient_id)) as [Ho|Ho].
  - by rewrite (delete_allergy_found _ _ _ a).
  - unfold delete_allergy.
    rewrite (serve_found patients _ p), (serve_found allergies _ a) by done.
    by rewrite bool_decide_eq_true_2.
Qed.

(** X16. A request that flashes a message is a rejected submission and
    nothing else: the store is unchanged, the response is a redirect,
    and the one message flashed is one of the three validation messages.
    No request both flashes and stores. *)
Theorem flash_means_rejected (r : Route) (request : Request) (s : Store) :
  flashed (serve (dispatch r request) s) ≠ [] →
  ∃ location message,
    serve (dispatch r request) s = rejected location message s ∧
    message ∈ messages.
Proof.
  intros Hf.
  assert (H : quiet_or_rejected s (serve (dispatch r request) s)).
  { unfold dispatch. destruct (methods r (method request)); [|by left].
    destruct r; auto using new_patient_flash, edit_patient_flash,
      patient_detail_flash, delete_patient_flash, add_visit_flash,
      add_medication_flash, add_allergy_flash, delete_visit_flash,
      delete_medication_flash, delete_allergy_flash.
    by left. }
  by destruct H.
Qed.

Lemma flash_means_rejected_clinic :
  ∃ location message,
    serve (dispatch (route_add_allergy 7) (post [("allergen", lit "  ")]%string))
      clinic
    = rejected location message clinic ∧ message ∈ messages.
Proof.
  apply (flash_means_rejected (route_add_allergy 7)
           (post [("allergen", lit "  ")]%string) clinic).
  vm_compute. congruence.
Defined.
